(** * SlideDeck AI web client: the session store and its transport boundary

    A shallow embedding of the TypeScript sources of the web client:

    - [apps/web/src/types/schema.ts]  the IR data model (module [Schema]);
    - [apps/web/src/lib/api.ts]       the typed API client (module [Api]);
    - [apps/web/src/lib/store.ts]     the Zustand store (module [Store]);
    - the call sites of the store in [ChatPanel.tsx] and [SlidePreview.tsx]
      (module [Ui]).

    Conventions of the embedding.

    - A JavaScript [number] that the code uses as a count or an index is an
      integer of [Z]; [String(n)] is the decimal text of it.
    - [T | null] and [T | undefined] are [option T].
    - An [async] function is cut at its [await]: the part before it runs
      when the action is invoked (it issues the [fetch]), the part after it
      runs when the promise settles.  A session therefore carries, beside
      the store, the calls in flight and the log of requests sent. *)

From Stdlib Require Import ZArith List String Ascii Bool Lia DecimalString.
From Stdlib Require DecimalZ DecimalPos.
Import ListNotations.

Local Open Scope string_scope.
Local Open Scope Z_scope.

(* ------------------------------------------------------------------ *)
(** ** JavaScript primitives the sources rely on *)

Module Js.

(** [!!s] for a string: only the empty string is falsy. *)
Definition truthy (s : string) : bool :=
  match s with
  | EmptyString => false
  | String _ _ => true
  end.

(** [!!v] for [string | null]. *)
Definition truthy_opt (v : option string) : bool :=
  match v with
  | None => false
  | Some s => truthy s
  end.

(** [a || b] on strings. *)
Definition or_else (a b : string) : string :=
  if truthy a then a else b.

(** [String(n)] and [`${n}`] for an integer-valued number. *)
Definition String_ (n : Z) : string :=
  NilZero.string_of_int (Z.to_int n).

(** White space of [String.prototype.trim] among the code units that an
    [ascii] can hold: TAB, LF, VT, FF, CR, SPACE and NBSP. *)
Definition is_space (c : ascii) : bool :=
  let n := nat_of_ascii c in
  (Nat.eqb n 9 || Nat.eqb n 10 || Nat.eqb n 11 || Nat.eqb n 12
   || Nat.eqb n 13 || Nat.eqb n 32 || Nat.eqb n 160)%bool.

Fixpoint trim_start (s : string) : string :=
  match s with
  | EmptyString => EmptyString
  | String c rest => if is_space c then trim_start rest else s
  end.

Fixpoint trim_end (s : string) : string :=
  match s with
  | EmptyString => EmptyString
  | String c rest =>
      match trim_end rest with
      | EmptyString => if is_space c then EmptyString else String c EmptyString
      | kept => String c kept
      end
  end.

Definition trim (s : string) : string := trim_end (trim_start s).

(** What a [catch] clause can receive. *)
Inductive Thrown : Type :=
| ApiError (status : Z) (message : string)   (* class ApiError extends Error *)
| OtherError (message : string)              (* any other instance of Error *)
| NotAnError.                                (* a thrown value that is no Error *)

Definition instanceof_Error (e : Thrown) : bool :=
  match e with
  | ApiError _ _ | OtherError _ => true
  | NotAnError => false
  end.

Definition message (e : Thrown) : string :=
  match e with
  | ApiError _ m | OtherError m => m
  | NotAnError => EmptyString
  end.

(** How a promise settles. *)
Inductive Outcome (T : Type) : Type :=
| Resolved (value : T)
| Rejected (reason : Thrown).

Arguments Resolved {T} value.
Arguments Rejected {T} reason.

End Js.

(* ------------------------------------------------------------------ *)
(** ** [types/schema.ts] *)

Module Schema.

Inductive HorizontalAlignment := left | center | right.
Inductive VerticalAlignment := top | middle | bottom.
Inductive ChartType := bar | line | pie | doughnut.
Inductive LayoutType :=
| title | title_content | two_column | blank | section_header | image_full.
Inductive GenerationMode := from_scratch | template | reference.

(** The wire form of a generation mode. *)
Definition mode_name (m : GenerationMode) : string :=
  match m with
  | from_scratch => "from_scratch"
  | template => "template"
  | reference => "reference"
  end.

Module TextBox.
Record t := make {
  content : string;
  is_title : bool;
  x : Z; y : Z; width : Z; height : Z;
  font_name : string;
  font_size : Z;
  font_bold : bool;
  font_italic : bool;
  font_color : string;
  alignment : HorizontalAlignment;
  vertical_alignment : VerticalAlignment
}.
End TextBox.

Module ImageElement.
Record t := make {
  url : option string;
  path : option string;
  alt_text : string;
  x : Z; y : Z; width : Z; height : Z
}.
End ImageElement.

Module ChartElement.
Record t := make {
  chart_type : ChartType;
  title : string;
  categories : list string;
  series : list (string * list Z);
  x : Z; y : Z; width : Z; height : Z
}.
End ChartElement.

(** [SlideElement = TextBox | ImageElement | ChartElement], told apart by
    the [type] tag. *)
Inductive SlideElement :=
| text (e : TextBox.t)
| image (e : ImageElement.t)
| chart (e : ChartElement.t).

Module Slide.
Record t := make {
  layout : LayoutType;
  background_color : string;
  elements : list SlideElement;
  speaker_notes : string
}.
End Slide.

Module ThemeSettings.
Record t := make {
  primary_color : string;
  secondary_color : string;
  background_color : string;
  font_heading : string;
  font_body : string
}.
End ThemeSettings.

Module Presentation.
Record t := make {
  title : string;
  subtitle : string;
  author : string;
  theme : ThemeSettings.t;
  slides : list Slide.t
}.
End Presentation.

Module DesignTokens.
Record t := make {
  primary_color : string;
  secondary_color : string;
  background_color : string;
  font_heading : string;
  font_body : string;
  layout_names : list string;
  extracted_colors : list string;
  extracted_fonts : list string
}.
End DesignTokens.

Module GenerateRequest.
Record t := make {
  prompt : string;
  num_slides : option Z;
  generation_mode : option GenerationMode
}.
End GenerateRequest.

Module GenerateResponse.
Record t := make {
  presentation_id : string;
  presentation : Presentation.t;
  download_url : string;
  preview_urls : list string;
  generation_mode : GenerationMode;
  design_tokens : option DesignTokens.t
}.
End GenerateResponse.

Module RefineResponse.
Record t := make {
  presentation_id : string;
  presentation : Presentation.t;
  download_url : string;
  preview_urls : list string
}.
End RefineResponse.

(** The browser's [File]: the store only hands it on. *)
Module File.
Record t := make {
  name : string;
  bytes : string
}.
End File.

End Schema.

(* ------------------------------------------------------------------ *)
(** ** [lib/api.ts]: the transport boundary *)

Module Api.

(** A multipart form entry: text or an attached file. *)
Inductive FormValue :=
| FormText (v : string)
| FormFile (f : Schema.File.t).

Definition FormData := list (string * FormValue).

(** A request body: a multipart form, or [JSON.stringify] of an object
    whose fields are strings (kept structured). *)
Inductive Body :=
| Multipart (form : FormData)
| Json (fields : list (string * string)).

(** One call of [fetch] as the network sees it. *)
Record Fetch := mkFetch {
  url : string;
  method : option string;
  json_content_type : bool;
  body : option Body
}.

(** Code of the module runs against the requests sent so far. *)
Definition Net (A : Type) : Type := list Fetch -> A * list Fetch.

Definition ret {A} (a : A) : Net A := fun sent => (a, sent).

Definition bind {A B} (m : Net A) (k : A -> Net B) : Net B :=
  fun sent => let (a, sent') := m sent in k a sent'.

Definition fetch (f : Fetch) : Net unit := fun sent => (tt, (sent ++ [f])%list).

(** The value of a computation that is run on a quiet network. *)
Definition value {A} (m : Net A) : A := fst (m []).

Declare Scope net_scope.
Delimit Scope net_scope with net.
Notation "x <- m ;; k" := (bind m (fun x => k))
  (at level 61, m at next level, right associativity) : net_scope.
Notation "m ;;; k" := (bind m (fun _ => k))
  (at level 61, right associativity) : net_scope.

(** What [await fetch(...)] gives back: a response, or a rejection (the
    network failed) carrying the message of its [TypeError]. *)
Record Response (T : Type) := mkResponse {
  ok : bool;
  status : Z;
  statusText : string;
  text : string;                (* [await res.text()] *)
  json : string + T             (* [res.json()]: a SyntaxError message, or the value *)
}.

Arguments ok {T} _.
Arguments status {T} _.
Arguments statusText {T} _.
Arguments text {T} _.
Arguments json {T} _.

Inductive Fetched (T : Type) :=
| Answered (res : Response T)
| Unreachable (message : string).

Arguments Answered {T} res.
Arguments Unreachable {T} message.

(** The part of [request] and of [requestMultipart] after [await fetch]. *)
Definition after_fetch {T} (r : Fetched T) : Js.Outcome T :=
  match r with
  | Unreachable m => Js.Rejected (Js.OtherError m)
  | Answered res =>
      if negb (ok res)
      then Js.Rejected (Js.ApiError (status res) (Js.or_else (text res) (statusText res)))
      else match json res with
           | inr v => Js.Resolved v
           | inl m => Js.Rejected (Js.OtherError m)
           end
  end.

Section Client.

(** [process.env.NEXT_PUBLIC_API_URL] when the module is loaded. *)
Variable NEXT_PUBLIC_API_URL : option string.

Definition API_BASE : string :=
  match NEXT_PUBLIC_API_URL with
  | Some u => Js.or_else u "http://localhost:8000"
  | None => "http://localhost:8000"
  end.

(** [request(path, options)] up to its first [await]. *)
Definition request (path : string) (method : option string) (body : option Body)
  : Net unit :=
  let url := API_BASE ++ path in
  fetch (mkFetch url method true body).

(** [requestMultipart(path, formData)] up to its first [await]. *)
Definition requestMultipart (path : string) (formData : FormData) : Net unit :=
  let url := API_BASE ++ path in
  fetch (mkFetch url (Some "POST") false (Some (Multipart formData))).

Definition generatePresentation
  (data : Schema.GenerateRequest.t) (file : option Schema.File.t) : Net unit :=
  let formData := [("prompt", FormText (Schema.GenerateRequest.prompt data))] in
  let formData :=
    match Schema.GenerateRequest.num_slides data with
    | Some n => (formData ++ [("num_slides", FormText (Js.String_ n))])%list
    | None => formData
    end in
  let formData :=
    (formData ++
     [("generation_mode",
       FormText match Schema.GenerateRequest.generation_mode data with
                | Some m => Schema.mode_name m
                | None => "from_scratch"
                end)])%list in
  let formData :=
    match file with
    | Some f => (formData ++ [("file", FormFile f)])%list
    | None => formData
    end in
  requestMultipart "/api/generate" formData.

Definition refinePresentation (presentationId instruction : string) : Net unit :=
  request ("/api/refine/" ++ presentationId) (Some "POST")
          (Some (Json [("instruction", instruction)])).

Definition getDownloadUrl (presentationId : string) : Net string :=
  ret (API_BASE ++ "/api/download/" ++ presentationId).

Definition getPreviewUrl (presentationId : string) (slideIndex : Z) : Net string :=
  ret (API_BASE ++ "/api/preview/" ++ presentationId ++ "/" ++ Js.String_ slideIndex).

Definition healthCheck : Net unit :=
  request "/health" None None.

End Client.

End Api.

(* ------------------------------------------------------------------ *)
(** ** [lib/store.ts]: the Zustand store *)

Module Store.

Import Js.

Record AppState := mkAppState {
  prompt : string;
  isGenerating : bool;
  isRefining : bool;
  presentation : option Schema.Presentation.t;
  presentationId : option string;
  previewUrls : list string;
  downloadUrl : option string;
  error : option string;
  activeSlideIndex : Z;
  generationMode : Schema.GenerationMode;
  templateFile : option Schema.File.t;
  promptHistory : list string
}.

Definition initial_state : AppState := {|
  prompt := "";
  isGenerating := false;
  isRefining := false;
  presentation := None;
  presentationId := None;
  previewUrls := [];
  downloadUrl := None;
  error := None;
  activeSlideIndex := 0;
  generationMode := Schema.from_scratch;
  templateFile := None;
  promptHistory := []
|}.

(** One [key: value] of the object given to Zustand's [set]. *)
Inductive Assign :=
| Prompt (v : string)
| IsGenerating (v : bool)
| IsRefining (v : bool)
| Presentation (v : option Schema.Presentation.t)
| PresentationId (v : option string)
| PreviewUrls (v : list string)
| DownloadUrl (v : option string)
| Error (v : option string)
| ActiveSlideIndex (v : Z)
| GenerationMode (v : Schema.GenerationMode)
| TemplateFile (v : option Schema.File.t)
| PromptHistory (v : list string).

(** The state with one key overwritten. *)
Definition assign (a : Assign) (s : AppState) : AppState :=
  match a with
  | Prompt v =>
      mkAppState v (isGenerating s) (isRefining s) (presentation s)
                 (presentationId s) (previewUrls s) (downloadUrl s) (error s)
                 (activeSlideIndex s) (generationMode s) (templateFile s) (promptHistory s)
  | IsGenerating v =>
      mkAppState (prompt s) v (isRefining s) (presentation s)
                 (presentationId s) (previewUrls s) (downloadUrl s) (error s)
                 (activeSlideIndex s) (generationMode s) (templateFile s) (promptHistory s)
  | IsRefining v =>
      mkAppState (prompt s) (isGenerating s) v (presentation s)
                 (presentationId s) (previewUrls s) (downloadUrl s) (error s)
                 (activeSlideIndex s) (generationMode s) (templateFile s) (promptHistory s)
  | Presentation v =>
      mkAppState (prompt s) (isGenerating s) (isRefining s) v
                 (presentationId s) (previewUrls s) (downloadUrl s) (error s)
                 (activeSlideIndex s) (generationMode s) (templateFile s) (promptHistory s)
  | PresentationId v =>
      mkAppState (prompt s) (isGenerating s) (isRefining s) (presentation s)
                 v (previewUrls s) (downloadUrl s) (error s)
                 (activeSlideIndex s) (generationMode s) (templateFile s) (promptHistory s)
  | PreviewUrls v =>
      mkAppState (prompt s) (isGenerating s) (isRefining s) (presentation s)
                 (presentationId s) v (downloadUrl s) (error s)
                 (activeSlideIndex s) (generationMode s) (templateFile s) (promptHistory s)
  | DownloadUrl v =>
      mkAppState (prompt s) (isGenerating s) (isRefining s) (presentation s)
                 (presentationId s) (previewUrls s) v (error s)
                 (activeSlideIndex s) (generationMode s) (templateFile s) (promptHistory s)
  | Error v =>
      mkAppState (prompt s) (isGenerating s) (isRefining s) (presentation s)
                 (presentationId s) (previewUrls s) (downloadUrl s) v
                 (activeSlideIndex s) (generationMode s) (templateFile s) (promptHistory s)
  | ActiveSlideIndex v =>
      mkAppState (prompt s) (isGenerating s) (isRefining s) (presentation s)
                 (presentationId s) (previewUrls s) (downloadUrl s) (error s)
                 v (generationMode s) (templateFile s) (promptHistory s)
  | GenerationMode v =>
      mkAppState (prompt s) (isGenerating s) (isRefining s) (presentation s)
                 (presentationId s) (previewUrls s) (downloadUrl s) (error s)
                 (activeSlideIndex s) v (templateFile s) (promptHistory s)
  | TemplateFile v =>
      mkAppState (prompt s) (isGenerating s) (isRefining s) (presentation s)
                 (presentationId s) (previewUrls s) (downloadUrl s) (error s)
                 (activeSlideIndex s) (generationMode s) v (promptHistory s)
  | PromptHistory v =>
      mkAppState (prompt s) (isGenerating s) (isRefining s) (presentation s)
                 (presentationId s) (previewUrls s) (downloadUrl s) (error s)
                 (activeSlideIndex s) (generationMode s) (templateFile s) v
  end.

(** Zustand merges the partial object into the state, key by key. *)
Definition merge (partial : list Assign) (s : AppState) : AppState :=
  fold_left (fun acc a => assign a acc) partial s.

(** The rest of an [async] action, parked at its [await] together with
    the variables it closes over. *)
Inductive Pending :=
| GenerateCall (prompt : string)
| RefineCall (presentationId : string) (promptHistory : list string)
             (instruction : string).

(** The store, the calls in flight (oldest first) and the requests sent. *)
Record Session := mkSession {
  store : AppState;
  inflight : list Pending;
  network : list Api.Fetch
}.

Definition initial : Session := mkSession initial_state [] [].

Definition get (ss : Session) : AppState := store ss.

Definition set (partial : list Assign) (ss : Session) : Session :=
  mkSession (merge partial (store ss)) (inflight ss) (network ss).

(** Run code of the API client; its requests go onto the log. *)
Definition call {A} (m : Api.Net A) (ss : Session) : A * Session :=
  let (a, sent) := m (network ss) in
  (a, mkSession (store ss) (inflight ss) sent).

Definition await (k : Pending) (ss : Session) : Session :=
  mkSession (store ss) (inflight ss ++ [k])%list (network ss).

(** [err instanceof Error ? err.message : fallback] *)
Definition message_or (fallback : string) (err : Thrown) : string :=
  if instanceof_Error err then message err else fallback.

(** *** The synchronous actions *)

Definition setPrompt (prompt : string) : Session -> Session :=
  set [Prompt prompt].

Definition setActiveSlide (index : Z) : Session -> Session :=
  set [ActiveSlideIndex index].

Definition setGenerationMode (mode : Schema.GenerationMode) : Session -> Session :=
  set [GenerationMode mode].

Definition setTemplateFile (file : option Schema.File.t) : Session -> Session :=
  set [TemplateFile file].

Definition reset : Session -> Session :=
  set [Prompt "";
       IsGenerating false;
       IsRefining false;
       Presentation None;
       PresentationId None;
       PreviewUrls [];
       DownloadUrl None;
       Error None;
       ActiveSlideIndex 0;
       GenerationMode Schema.from_scratch;
       TemplateFile None;
       PromptHistory []].

Section Actions.

Variable NEXT_PUBLIC_API_URL : option string.

(** *** [generate]: up to the [await] ... *)
Definition generate (prompt : string) (numSlides : option Z) (ss : Session)
  : Session :=
  let generationMode := generationMode (get ss) in
  let templateFile := templateFile (get ss) in
  let ss := set [IsGenerating true; Error None] ss in
  let (_, ss) :=
    call (Api.generatePresentation NEXT_PUBLIC_API_URL
            (Schema.GenerateRequest.make prompt numSlides (Some generationMode))
            templateFile) ss in
  await (GenerateCall prompt) ss.

(** ... and from the [await] on, when the promise has settled. *)
Definition generate_settled (prompt : string)
  (settled : Outcome Schema.GenerateResponse.t) (ss : Session) : Session :=
  match settled with
  | Resolved response =>
      let (url, ss) :=
        call (Api.getDownloadUrl NEXT_PUBLIC_API_URL
                (Schema.GenerateResponse.presentation_id response)) ss in
      set [IsGenerating false;
           Presentation (Some (Schema.GenerateResponse.presentation response));
           PresentationId (Some (Schema.GenerateResponse.presentation_id response));
           PreviewUrls (Schema.GenerateResponse.preview_urls response);
           DownloadUrl (Some url);
           ActiveSlideIndex 0;
           PromptHistory [prompt]] ss
  | Rejected err =>
      set [IsGenerating false;
           Error (Some (message_or "Generation failed" err))] ss
  end.

(** *** [refine]: up to the [await] ... *)
Definition refine (instruction : string) (ss : Session) : Session :=
  let presentationId := presentationId (get ss) in
  let promptHistory := promptHistory (get ss) in
  match presentationId with
  | None => ss
  | Some presentationId =>
      if negb (truthy presentationId) then ss
      else
        let ss := set [IsRefining true; Error None] ss in
        let (_, ss) :=
          call (Api.refinePresentation NEXT_PUBLIC_API_URL
                  presentationId instruction) ss in
        await (RefineCall presentationId promptHistory instruction) ss
  end.

(** ... and from the [await] on. *)
Definition refine_settled (promptHistory : list string) (instruction : string)
  (settled : Outcome Schema.RefineResponse.t) (ss : Session) : Session :=
  match settled with
  | Resolved response =>
      let (url, ss) :=
        call (Api.getDownloadUrl NEXT_PUBLIC_API_URL
                (Schema.RefineResponse.presentation_id response)) ss in
      set [IsRefining false;
           Presentation (Some (Schema.RefineResponse.presentation response));
           PreviewUrls (Schema.RefineResponse.preview_urls response);
           DownloadUrl (Some url);
           ActiveSlideIndex 0;
           PromptHistory (promptHistory ++ [instruction])%list] ss
  | Rejected err =>
      set [IsRefining false;
           Error (Some (message_or "Refinement failed" err))] ss
  end.

End Actions.

(** *** Sessions as transition systems

    What can happen to a session: an action of the store is invoked, or
    the call parked at position [n] of [inflight] settles. *)
Inductive Event :=
| SetPrompt (prompt : string)
| SetActiveSlide (index : Z)
| SetGenerationMode (mode : Schema.GenerationMode)
| SetTemplateFile (file : option Schema.File.t)
| Generate (prompt : string) (numSlides : option Z)
| Refine (instruction : string)
| DoReset
| GenerateSettles (n : nat) (settled : Outcome Schema.GenerateResponse.t)
| RefineSettles (n : nat) (settled : Outcome Schema.RefineResponse.t).

Fixpoint remove_nth {A} (n : nat) (l : list A) : list A :=
  match l, n with
  | [], _ => []
  | _ :: rest, O => rest
  | a :: rest, S m => a :: remove_nth m rest
  end.

(** Take the call at position [n] out of flight. *)
Definition resume (n : nat) (ss : Session) : option (Pending * Session) :=
  match nth_error (inflight ss) n with
  | Some k => Some (k, mkSession (store ss) (remove_nth n (inflight ss)) (network ss))
  | None => None
  end.

Section Transitions.

Variable NEXT_PUBLIC_API_URL : option string.

(** [None]: the event cannot happen (no such call in flight, or a
    response of the other kind). *)
Definition step (e : Event) (ss : Session) : option Session :=
  match e with
  | SetPrompt prompt => Some (setPrompt prompt ss)
  | SetActiveSlide index => Some (setActiveSlide index ss)
  | SetGenerationMode mode => Some (setGenerationMode mode ss)
  | SetTemplateFile file => Some (setTemplateFile file ss)
  | Generate prompt numSlides => Some (generate NEXT_PUBLIC_API_URL prompt numSlides ss)
  | Refine instruction => Some (refine NEXT_PUBLIC_API_URL instruction ss)
  | DoReset => Some (reset ss)
  | GenerateSettles n settled =>
      match resume n ss with
      | Some (GenerateCall prompt, ss') =>
          Some (generate_settled NEXT_PUBLIC_API_URL prompt settled ss')
      | _ => None
      end
  | RefineSettles n settled =>
      match resume n ss with
      | Some (RefineCall _ promptHistory instruction, ss') =>
          Some (refine_settled NEXT_PUBLIC_API_URL promptHistory instruction settled ss')
      | _ => None
      end
  end.

Fixpoint run (es : list Event) (ss : Session) : option Session :=
  match es with
  | [] => Some ss
  | e :: rest =>
      match step e ss with
      | Some ss' => run rest ss'
      | None => None
      end
  end.

Definition reachable (ss : Session) : Prop :=
  exists es, run es initial = Some ss.

(** *** Serialized use

    The discipline the callers are meant to keep: [generate] and [refine]
    are invoked only while no call is in flight. *)
Definition dispatches (e : Event) : bool :=
  match e with
  | Generate _ _ | Refine _ => true
  | _ => false
  end.

Definition quiet (ss : Session) : bool :=
  match inflight ss with
  | [] => true
  | _ :: _ => false
  end.

Definition serial_step (e : Event) (ss : Session) : option Session :=
  if (dispatches e && negb (quiet ss))%bool then None else step e ss.

Fixpoint serial_run (es : list Event) (ss : Session) : option Session :=
  match es with
  | [] => Some ss
  | e :: rest =>
      match serial_step e ss with
      | Some ss' => serial_run rest ss'
      | None => None
      end
  end.

Definition serially_reachable (ss : Session) : Prop :=
  exists es, serial_run es initial = Some ss.

End Transitions.

(** What serialized use maintains: at most one call is in flight, a busy
    flag is up only for the call in flight, and while one is in flight no
    error is recorded. *)
Definition serial_inv (ss : Session) : Prop :=
  match inflight ss with
  | [] => isGenerating (store ss) = false /\ isRefining (store ss) = false
  | [GenerateCall _] => isRefining (store ss) = false /\ error (store ss) = None
  | [RefineCall _ _ _] => isGenerating (store ss) = false /\ error (store ss) = None
  | _ => False
  end.

(** *** The four states of the session, read off the store *)
Inductive Phase := Idle | Generating | Ready | Refining.

(** [None] when both busy flags are up: no phase describes the store. *)
Definition phase (s : AppState) : option Phase :=
  match isGenerating s, isRefining s with
  | true, true => None
  | true, false => Some Generating
  | false, true => Some Refining
  | false, false =>
      match presentation s with
      | None => Some Idle
      | Some _ => Some Ready
      end
  end.

(** [slides.length] of the presentation in the store. *)
Definition slideCount (s : AppState) : Z :=
  match presentation s with
  | Some p => Z.of_nat (List.length (Schema.Presentation.slides p))
  | None => 0
  end.

(** The last good presentation, its identity and the history are those
    of [before]. *)
Definition keeps_presentation (before after : AppState) : Prop :=
  presentation after = presentation before /\
  presentationId after = presentationId before /\
  promptHistory after = promptHistory before.

(** The active slide is one of the slides. *)
Definition in_range (s : AppState) : Prop :=
  0 <= activeSlideIndex s <= slideCount s - 1.

(** Clamping of [x] into [[lo, hi]]. *)
Definition clamp (lo hi x : Z) : Z := Z.max lo (Z.min x hi).

End Store.

(* ------------------------------------------------------------------ *)
(** ** The callers of the store: [ChatPanel.tsx] and [SlidePreview.tsx] *)

Module Ui.

Import Js Store.

Section Handlers.

Variable NEXT_PUBLIC_API_URL : option string.

(** [handleSubmit] of the chat panel; [numSlides] is component state. *)
Definition handleSubmit (numSlides : option Z) (ss : Session) : Session :=
  let prompt := prompt (get ss) in
  let isGenerating := isGenerating (get ss) in
  if (negb (truthy (trim prompt)) || isGenerating)%bool then ss
  else generate NEXT_PUBLIC_API_URL (trim prompt) numSlides ss.

(** [handleRefine] of the chat panel; [refineInput] is component state. *)
Definition handleRefine (refineInput : string) (ss : Session) : Session :=
  let isRefining := isRefining (get ss) in
  if (negb (truthy (trim refineInput)) || isRefining)%bool then ss
  else refine NEXT_PUBLIC_API_URL (trim refineInput) ss.

End Handlers.

(** The preview panel renders its navigation only when a presentation is
    there; [goNext], [goPrev] and the thumbnails are its three callers of
    [setActiveSlide]. *)
Definition goNext (ss : Session) : Session :=
  match presentation (get ss) with
  | None => ss
  | Some p =>
      let slides := Schema.Presentation.slides p in
      setActiveSlide
        (Z.min (activeSlideIndex (get ss) + 1) (Z.of_nat (List.length slides) - 1)) ss
  end.

Definition goPrev (ss : Session) : Session :=
  match presentation (get ss) with
  | None => ss
  | Some _ => setActiveSlide (Z.max (activeSlideIndex (get ss) - 1) 0) ss
  end.

(** A click on the thumbnail of slide [idx]; there is one per slide. *)
Definition thumbClick (idx : nat) (ss : Session) : Session :=
  match presentation (get ss) with
  | None => ss
  | Some p =>
      if (idx <? List.length (Schema.Presentation.slides p))%nat
      then setActiveSlide (Z.of_nat idx) ss
      else ss
  end.

End Ui.

(* ------------------------------------------------------------------ *)
(** ** Sample sessions *)

Module Samples.

Import Js Store.

Definition theme : Schema.ThemeSettings.t :=
  Schema.ThemeSettings.make "#1a73e8" "#fbbc04" "#ffffff" "Inter" "Inter".

Definition heading (s : string) : Schema.SlideElement :=
  Schema.text
    (Schema.TextBox.make s true 1 1 8 1 "Inter" 32 true false "#202124"
       Schema.center Schema.middle).

Definition slide_of (s : string) : Schema.Slide.t :=
  Schema.Slide.make Schema.title_content "#ffffff" [heading s] "".

Definition deck3 : Schema.Presentation.t :=
  Schema.Presentation.make "Pitch" "Seed round" "Ada" theme
    [slide_of "Problem"; slide_of "Solution"; slide_of "Ask"].

Definition deck4 : Schema.Presentation.t :=
  Schema.Presentation.make "Pitch" "Seed round" "Ada" theme
    [slide_of "Problem"; slide_of "Solution"; slide_of "Pricing"; slide_of "Ask"].

Definition generated_p1 : Schema.GenerateResponse.t :=
  Schema.GenerateResponse.make "p1" deck3 "/api/download/p1"
    ["/api/preview/p1/0"; "/api/preview/p1/1"; "/api/preview/p1/2"]
    Schema.from_scratch None.

Definition refined_p1 : Schema.RefineResponse.t :=
  Schema.RefineResponse.make "p1" deck4 "/api/download/p1"
    ["/api/preview/p1/0"; "/api/preview/p1/1"; "/api/preview/p1/2";
     "/api/preview/p1/3"].

(** No [NEXT_PUBLIC_API_URL] in the environment: the local backend. *)
Definition local : option string := None.

Definition pitch : string := "Make a 3-slide pitch deck".

Definition server_error : Thrown := ApiError 500 "Internal Server Error".

(** The session after the events [es], from a fresh store. *)
Definition after (es : list Event) : Session :=
  match run local es initial with
  | Some ss => ss
  | None => initial
  end.

(** Generating: the first call is in flight. *)
Definition generating : Session := after [Generate pitch None].

(** Ready with the three-slide deck ["p1"]. *)
Definition ready_p1 : Session :=
  after [Generate pitch None; GenerateSettles 0 (Resolved generated_p1)].

(** Refining: a refine of ["p1"] is in flight. *)
Definition refining : Session :=
  after [Generate pitch None; GenerateSettles 0 (Resolved generated_p1);
         Refine "Add pricing"].

(** A refine is in flight and [generate] is invoked on top of it. *)
Definition both_busy : Session :=
  after [Generate pitch None; GenerateSettles 0 (Resolved generated_p1);
         Refine "Add pricing"; Generate "Start again" None].

(** Two [generate] calls overlap and the older one fails. *)
Definition failed_while_busy : Session :=
  after [Generate pitch None; Generate "Start again" None;
         GenerateSettles 0 (Rejected server_error)].

(** The same through the chat panel alone: a refine is in flight, the
    user starts over and submits a new prompt, then the refine fails. *)
Definition stale_failure : Session :=
  let ss := Ui.handleRefine local "Add pricing" ready_p1 in
  let ss := reset ss in
  let ss := setPrompt "Start again" ss in
  let ss := Ui.handleSubmit local None ss in
  match step local (RefineSettles 0 (Rejected server_error)) ss with
  | Some ss' => ss'
  | None => ss
  end.

End Samples.

(* ------------------------------------------------------------------ *)
(** ** The rest of the store and of its callers *)

(** [downloadPptx] of [lib/store.ts]. *)
Module Download.

Import Js Store.

(** The arguments of the [window.open] it makes, if it makes one; the
    store is left alone. *)
Definition downloadPptx (ss : Session) : option (string * string) :=
  match downloadUrl (get ss) with
  | Some downloadUrl =>
      if truthy downloadUrl then Some (downloadUrl, "_blank") else None
  | None => None
  end.

End Download.

(** [SlidePreview.tsx]: what the preview panel works out before it
    renders. *)
Module Preview.

Import Js Store.

(** [xs[i]]: [undefined] outside the array. *)
Definition at_ {A} (xs : list A) (i : Z) : option A :=
  if i <? 0 then None else nth_error xs (Z.to_nat i).

(** [elements.filter(el => el.type === "text")] *)
Fixpoint texts (elements : list Schema.SlideElement) : list Schema.TextBox.t :=
  match elements with
  | [] => []
  | Schema.text e :: rest => e :: texts rest
  | _ :: rest => texts rest
  end.

(** The locals of [SlideCard]. *)
Definition textElements (slide : Schema.Slide.t) : list Schema.TextBox.t :=
  texts (Schema.Slide.elements slide).

Definition titleEl (slide : Schema.Slide.t) : option Schema.TextBox.t :=
  find Schema.TextBox.is_title (textElements slide).

Definition bodyEls (slide : Schema.Slide.t) : list Schema.TextBox.t :=
  filter (fun el => negb (Schema.TextBox.is_title el)) (textElements slide).

(** [bodyEls.slice(0, 4)], the paragraphs of the card. *)
Definition shownBodies (slide : Schema.Slide.t) : list Schema.TextBox.t :=
  firstn 4 (bodyEls slide).

(** The [n] of the line "+n more elements", when the card has one. *)
Definition moreCount (slide : Schema.Slide.t) : option nat :=
  if (4 <? List.length (bodyEls slide))%nat
  then Some (List.length (bodyEls slide) - 4)%nat
  else None.

(** The title a thumbnail looks for:
    [elements.find(el => el.type === "text" && el.is_title)]. *)
Definition is_title_text (el : Schema.SlideElement) : bool :=
  match el with
  | Schema.text e => Schema.TextBox.is_title e
  | _ => false
  end.

Definition thumbTitle (slide : Schema.Slide.t) : option Schema.SlideElement :=
  find is_title_text (Schema.Slide.elements slide).

(** [previewUrls.length > 0 && presentationId && previewUrls[activeSlideIndex]] *)
Definition hasPreview (s : AppState) : bool :=
  ((0 <? List.length (previewUrls s))%nat
   && truthy_opt (presentationId s)
   && truthy_opt (at_ (previewUrls s) (activeSlideIndex s)))%bool.

(** [disabled] of the two navigation buttons. *)
Definition prevDisabled (s : AppState) : bool :=
  activeSlideIndex s =? 0.

Definition nextDisabled (s : AppState) : bool :=
  match presentation s with
  | Some p =>
      Z.of_nat (List.length (Schema.Presentation.slides p)) - 1 <=? activeSlideIndex s
  | None => true
  end.

(** What the panel puts on its stage. *)
Inductive Stage :=
| Placeholder                                  (* no presentation yet *)
| Image (src : string)                         (* the rendered preview *)
| Card (slide : Schema.Slide.t) (index : Z)    (* [SlideCard], from the IR *)
| Blank.                                       (* nothing at all *)

Section Stage.

Variable NEXT_PUBLIC_API_URL : option string.

Definition stage (ss : Session) : Stage :=
  let s := get ss in
  match presentation s with
  | None => Placeholder
  | Some p =>
      let slides := Schema.Presentation.slides p in
      let activeSlide := at_ slides (activeSlideIndex s) in
      if hasPreview s then
        match presentationId s with
        | Some id =>
            Image (Api.value (Api.getPreviewUrl NEXT_PUBLIC_API_URL id
                                (activeSlideIndex s)))
        | None => Blank
        end
      else
        match activeSlide with
        | Some slide => Card slide (activeSlideIndex s)
        | None => Blank
        end
  end.

End Stage.

End Preview.

(** [ChatPanel.tsx] and [Header.tsx]: the handlers, and which controls
    are there to be used. *)
Module Panel.

Import Js Store.

Definition EXAMPLE_PROMPTS : list string :=
  ["Create a 5-slide pitch deck for a SaaS startup that automates invoicing";
   "Design a 4-slide presentation about climate change impact on agriculture";
   "Make a 6-slide product launch presentation for a smart fitness watch";
   "Build a 3-slide company quarterly results summary with key metrics"].

(** [s.endsWith(suffix)] *)
Definition endsWith (s suffix : string) : bool :=
  let n := String.length s in
  let m := String.length suffix in
  if (m <=? n)%nat then String.eqb (substring (n - m) m s) suffix else false.

Definition handleExample (example : string) : Session -> Session :=
  setPrompt example.

(** [file] is [e.target.files?.[0]]. *)
Definition handleFileChange (file : option Schema.File.t) (ss : Session) : Session :=
  match file with
  | Some f => setTemplateFile (Some f) ss
  | None => ss
  end.

(** [file] is [e.dataTransfer.files?.[0]]. *)
Definition handleFileDrop (file : option Schema.File.t) (ss : Session) : Session :=
  match file with
  | Some f =>
      if endsWith (Schema.File.name f) ".pptx"
      then setTemplateFile (Some f) ss
      else ss
  | None => ss
  end.

Definition showFileUpload (s : AppState) : bool :=
  match generationMode s with
  | Schema.template | Schema.reference => true
  | Schema.from_scratch => false
  end.

Definition isBusy (s : AppState) : bool :=
  (isGenerating s || isRefining s)%bool.

(** Is there a presentation?  The panel shows either the controls for a
    first prompt or those that come after a generation. *)
Definition hasPresentation (s : AppState) : bool :=
  match presentation s with
  | Some _ => true
  | None => false
  end.

(** What a user can do to the two panels and the header, and what the
    network can do to the session.  [numSlides] and [refineInput] are
    state of the component, so they come with the gesture. *)
Inductive Gesture :=
| TypePrompt (text : string)
| PickExample (i : nat)
| PickMode (mode : Schema.GenerationMode)
| ChooseFile (file : option Schema.File.t)
| DropFile (file : option Schema.File.t)
| RemoveFile
| Submit (numSlides : option Z)
| SubmitRefine (refineInput : string)
| StartOver
| Download
| Next
| Prev
| Thumb (idx : nat)
| GenerateAnswered (n : nat) (settled : Outcome Schema.GenerateResponse.t)
| RefineAnswered (n : nat) (settled : Outcome Schema.RefineResponse.t).

Section Gestures.

Variable NEXT_PUBLIC_API_URL : option string.

(** The control of the gesture is rendered and not disabled. *)
Definition offered (g : Gesture) (s : AppState) : bool :=
  match g with
  | TypePrompt _ | Submit _ => (negb (hasPresentation s) && negb (isBusy s))%bool
  | PickExample i =>
      (negb (hasPresentation s)
       && match nth_error EXAMPLE_PROMPTS i with Some _ => true | None => false end)%bool
  | PickMode _ => negb (hasPresentation s)
  | ChooseFile _ | DropFile _ => (negb (hasPresentation s) && showFileUpload s)%bool
  | RemoveFile =>
      (negb (hasPresentation s) && showFileUpload s
       && match templateFile s with Some _ => true | None => false end)%bool
  | SubmitRefine _ => (hasPresentation s && negb (isBusy s))%bool
  | StartOver => hasPresentation s
  | Download => (hasPresentation s && truthy_opt (downloadUrl s))%bool
  | Next => (hasPresentation s && negb (Preview.nextDisabled s))%bool
  | Prev => (hasPresentation s && negb (Preview.prevDisabled s))%bool
  | Thumb _ => hasPresentation s
  | GenerateAnswered _ _ | RefineAnswered _ _ => true
  end.

(** The handler the gesture runs. *)
Definition handle (g : Gesture) (ss : Session) : option Session :=
  match g with
  | TypePrompt text => Some (setPrompt text ss)
  | PickExample i =>
      match nth_error EXAMPLE_PROMPTS i with
      | Some ex => Some (handleExample ex ss)
      | None => None
      end
  | PickMode mode => Some (setGenerationMode mode ss)
  | ChooseFile file => Some (handleFileChange file ss)
  | DropFile file => Some (handleFileDrop file ss)
  | RemoveFile => Some (setTemplateFile None ss)
  | Submit numSlides => Some (Ui.handleSubmit NEXT_PUBLIC_API_URL numSlides ss)
  | SubmitRefine refineInput =>
      Some (Ui.handleRefine NEXT_PUBLIC_API_URL refineInput ss)
  | StartOver => Some (reset ss)
  | Download => Some ss
  | Next => Some (Ui.goNext ss)
  | Prev => Some (Ui.goPrev ss)
  | Thumb idx => Some (Ui.thumbClick idx ss)
  | GenerateAnswered n settled =>
      step NEXT_PUBLIC_API_URL (GenerateSettles n settled) ss
  | RefineAnswered n settled =>
      step NEXT_PUBLIC_API_URL (RefineSettles n settled) ss
  end.

Definition ui_step (g : Gesture) (ss : Session) : option Session :=
  if offered g (get ss) then handle g ss else None.

Fixpoint ui_run (gs : list Gesture) (ss : Session) : option Session :=
  match gs with
  | [] => Some ss
  | g :: rest =>
      match ui_step g ss with
      | Some ss' => ui_run rest ss'
      | None => None
      end
  end.

Definition ui_reachable (ss : Session) : Prop :=
  exists gs, ui_run gs initial = Some ss.

End Gestures.

End Panel.

(** What the sessions below are checked against. *)
Module Invariants.

Import Js Store.

Definition is_generate (k : Pending) : bool :=
  match k with
  | GenerateCall _ => true
  | RefineCall _ _ _ => false
  end.

Definition is_refine (k : Pending) : bool := negb (is_generate k).

(** A busy flag that is up has a call in flight to bring it down. *)
Definition flags_backed (ss : Session) : Prop :=
  (isGenerating (store ss) = true -> existsb is_generate (inflight ss) = true) /\
  (isRefining (store ss) = true -> existsb is_refine (inflight ss) = true).

Section WithBase.

Variable NEXT_PUBLIC_API_URL : option string.

(** The deck, its download link and its history come and go together,
    and an identity is only there with a deck. *)
Definition coherent (s : AppState) : Prop :=
  (presentation s = None <-> downloadUrl s = None) /\
  (presentation s = None <-> promptHistory s = []) /\
  (presentation s = None -> presentationId s = None) /\
  (forall u, downloadUrl s = Some u ->
     exists id, u = Api.API_BASE NEXT_PUBLIC_API_URL ++ "/api/download/" ++ id).

(** A request the store may send. *)
Definition store_request (f : Api.Fetch) : Prop :=
  Api.method f = Some "POST" /\
  (Api.url f = Api.API_BASE NEXT_PUBLIC_API_URL ++ "/api/generate" \/
   exists id, truthy id = true /\
     Api.url f = Api.API_BASE NEXT_PUBLIC_API_URL ++ "/api/refine/" ++ id).

End WithBase.

(** The cursor is on a slide, or at 0 when there is none. *)
Definition cursor_valid (s : AppState) : Prop :=
  0 <= activeSlideIndex s /\
  (activeSlideIndex s <= slideCount s - 1 \/ activeSlideIndex s = 0).

(** Nothing blank among the prompts. *)
Definition told (ps : list string) : Prop :=
  Forall (fun p => truthy p = true) ps.

Definition prompts_told (ss : Session) : Prop :=
  told (promptHistory (store ss)) /\
  Forall (fun k =>
            match k with
            | GenerateCall p => truthy p = true
            | RefineCall _ history instruction =>
                told history /\ truthy instruction = true
            end) (inflight ss).

(** What the guards of the panels see to before an action of the store
    is invoked: no call is dispatched while a busy flag is up or with a
    blank text, and the cursor is only put on a slide. *)
Definition polite (e : Event) (s : AppState) : Prop :=
  match e with
  | Generate prompt _ =>
      isGenerating s = false /\ isRefining s = false /\ truthy prompt = true
  | Refine instruction =>
      isGenerating s = false /\ isRefining s = false /\ truthy instruction = true
  | SetActiveSlide index =>
      0 <= index /\ (index <= slideCount s - 1 \/ index = 0)
  | _ => True
  end.

Definition exclusive (s : AppState) : Prop :=
  (isGenerating s && isRefining s)%bool = false.

Definition ui_inv (ss : Session) : Prop :=
  cursor_valid (store ss) /\ exclusive (store ss) /\ prompts_told ss.

End Invariants.

(** More sample sessions, for the properties of the rest of the code. *)
Module Cases.

Import Js Store.

Definition brand : Schema.File.t := Schema.File.make "brand.pptx" "PK".

(** A template was chosen, then the mode was put back to from-scratch. *)
Definition file_left_behind : Session :=
  setGenerationMode Schema.from_scratch
    (setTemplateFile (Some brand) (setGenerationMode Schema.template initial)).

(** The server is out of quota. *)
Definition overloaded : Api.Fetched Schema.GenerateResponse.t :=
  Api.Answered
    (Api.mkResponse Schema.GenerateResponse.t false 429 "Too Many Requests"
       "LLM quota exceeded" (inl "Unexpected token L")).

(** A deck whose previews stop after the first slide. *)
Definition generated_p2 : Schema.GenerateResponse.t :=
  Schema.GenerateResponse.make "p2" Samples.deck3 "/api/download/p2"
    ["/api/preview/p2/0"] Schema.from_scratch None.

Definition ready_p2_last : Session :=
  setActiveSlide 2
    (Samples.after [Generate Samples.pitch None;
                    GenerateSettles 0 (Resolved generated_p2)]).

(** A slide with two boxes flagged as title, six bodies and an image. *)
Definition body (s : string) : Schema.SlideElement :=
  Schema.text
    (Schema.TextBox.make s false 1 3 8 1 "Inter" 18 false false "#202124"
       Schema.left Schema.top).

Definition crowded : Schema.Slide.t :=
  Schema.Slide.make Schema.title_content "#ffffff"
    [Schema.image (Schema.ImageElement.make (Some "https://example.com/a.png") None
                     "logo" 0 0 1 1);
     Samples.heading "Roadmap"; body "Q1"; body "Q2"; Samples.heading "Appendix";
     body "Q3"; body "Q4"; body "Risks"; body "Budget"]
    "".

(** The session after the gestures [gs], from a fresh store. *)
Definition ui_after (gs : list Panel.Gesture) : Session :=
  match Panel.ui_run Samples.local gs initial with
  | Some ss => ss
  | None => initial
  end.

(** Generate, refine, start over while the refine is in flight, submit
    again: two calls are in flight. *)
Definition started_over : list Panel.Gesture :=
  [Panel.PickExample 3; Panel.Submit (Some 3);
   Panel.GenerateAnswered 0 (Resolved Samples.generated_p1);
   Panel.Next; Panel.SubmitRefine "  Add pricing ";
   Panel.StartOver; Panel.TypePrompt "Start again"; Panel.Submit None].

(** A prompt was typed and submitted: the call is in flight and the
    prompt is still in the box. *)
Definition submitted : Session :=
  Ui.handleSubmit Samples.local None (setPrompt Samples.pitch initial).

(** The store was reset under that call and a new prompt typed: the call
    is still in flight, [isGenerating] is down. *)
Definition abandoned : Session :=
  setPrompt "Start again" (reset submitted).

(** A refine is in flight, the store is reset and [generate] is invoked:
    two calls overlap, with one flag up. *)
Definition overlapping : Session :=
  Samples.after [Generate Samples.pitch None;
                 GenerateSettles 0 (Resolved Samples.generated_p1);
                 Refine "Add pricing"; DoReset; Generate "Start again" None].

(** The first box flagged as title on [crowded]. *)
Definition roadmap : Schema.TextBox.t :=
  Schema.TextBox.make "Roadmap" true 1 1 8 1 "Inter" 32 true false "#202124"
    Schema.center Schema.middle.

(** A deck is generated and the user goes on twice and back once. *)
Definition browsing : list Panel.Gesture :=
  [Panel.PickExample 3; Panel.Submit (Some 3);
   Panel.GenerateAnswered 0 (Resolved Samples.generated_p1);
   Panel.Next; Panel.Next; Panel.Prev].

End Cases.

(** Runs in which the two kinds of call do not cross. *)
Module Crossing.

Import Js Store.

(** The action is [generate] while [isRefining] is up, or [refine], with
    an id to refine, while [isGenerating] is up. *)
Definition crosses (e : Event) (s : AppState) : bool :=
  match e with
  | Generate _ _ => isRefining s
  | Refine _ => (isGenerating s && truthy_opt (presentationId s))%bool
  | _ => false
  end.

Section Runs.

Variable NEXT_PUBLIC_API_URL : option string.

Definition uncrossed_step (e : Event) (ss : Session) : option Session :=
  if crosses e (store ss) then None else step NEXT_PUBLIC_API_URL e ss.

Fixpoint uncrossed_run (es : list Event) (ss : Session) : option Session :=
  match es with
  | [] => Some ss
  | e :: rest =>
      match uncrossed_step e ss with
      | Some ss' => uncrossed_run rest ss'
      | None => None
      end
  end.

Definition uncrossed_reachable (ss : Session) : Prop :=
  exists es, uncrossed_run es initial = Some ss.

End Runs.

End Crossing.

(* ------------------------------------------------------------------ *)
(** ** Properties *)

Import Js Store.

(** *** Lists of calls in flight *)

Lemma nth_error_snoc {A} (l : list A) (a : A) :
  nth_error (l ++ [a])%list (List.length l) = Some a.
Proof.
  induction l as [|b l IH]; simpl; auto.
Qed.

Lemma remove_nth_snoc {A} (l : list A) (a : A) :
  remove_nth (List.length l) (l ++ [a])%list = l.
Proof.
  induction l as [|b l IH]; simpl; [reflexivity | now rewrite IH].
Qed.

(** The call parked last is the one at position [length (inflight ss)] of
    the session that parked it. *)
Lemma resume_await (k : Pending) (ss : Session) :
  resume (List.length (inflight ss)) (await k ss) = Some (k, ss).
Proof.
  unfold resume, await; simpl.
  rewrite nth_error_snoc, remove_nth_snoc.
  now destruct ss.
Qed.

(** *** The transport only ever rejects with an [Error] *)

Lemma after_fetch_rejects_with_Error {T} (r : Api.Fetched T) (err : Thrown) :
  Api.after_fetch r = Rejected err -> instanceof_Error err = true.
Proof.
  destruct r as [res | m]; simpl.
  - destruct (Api.ok res); simpl.
    + destruct (Api.json res); intros H; inversion H; reflexivity.
    + intros H; inversion H; reflexivity.
  - intros H; inversion H; reflexivity.
Qed.

Lemma message_or_Error (fallback : string) (err : Thrown) :
  instanceof_Error err = true -> message_or fallback err = message err.
Proof.
  unfold message_or; now intros ->.
Qed.

Section Properties.

Variable env : option string.

(** *** What [generate] and [refine] do up to their [await] *)

Lemma generate_dispatch (prompt : string) (numSlides : option Z) (ss : Session) :
  exists f,
    generate env prompt numSlides ss =
    await (GenerateCall prompt)
      (mkSession (merge [IsGenerating true; Error None] (store ss))
                 (inflight ss) (network ss ++ [f])%list).
Proof.
  unfold generate, call, set, get; simpl.
  unfold Api.generatePresentation, Api.requestMultipart, Api.fetch.
  eexists; reflexivity.
Qed.

Lemma refine_dispatch (instruction pid : string) (ss : Session) :
  presentationId (store ss) = Some pid -> truthy pid = true ->
  exists f,
    refine env instruction ss =
    await (RefineCall pid (promptHistory (store ss)) instruction)
      (mkSession (merge [IsRefining true; Error None] (store ss))
                 (inflight ss) (network ss ++ [f])%list).
Proof.
  intros Hid Hpid. unfold refine, get. rewrite Hid, Hpid; simpl.
  unfold call, set; simpl.
  unfold Api.refinePresentation, Api.request, Api.fetch.
  eexists; reflexivity.
Qed.

Lemma truthy_opt_Some (v : option string) :
  truthy_opt v = true -> exists pid, v = Some pid /\ truthy pid = true.
Proof.
  destruct v as [pid|]; simpl; [eauto | discriminate].
Qed.

(** *** Success *)

(** C2.  A [generate] call that succeeds replaces the presentation by the
    one of the response, takes [presentationId] and [previewUrls] from the
    response, sets [downloadUrl] to [getDownloadUrl] of the response's
    [presentation_id], puts the active slide back to 0 and makes the
    prompt the only entry of the history; [isGenerating] is down again.
    This holds from every session and for every prompt and response. *)
Theorem generate_success_replaces_session
  (ss : Session) (prompt : string) (numSlides : option Z)
  (response : Schema.GenerateResponse.t) :
  exists ss',
    run env [Generate prompt numSlides;
             GenerateSettles (List.length (inflight ss)) (Resolved response)] ss
    = Some ss' /\
    presentation (store ss') = Some (Schema.GenerateResponse.presentation response) /\
    presentationId (store ss') = Some (Schema.GenerateResponse.presentation_id response) /\
    previewUrls (store ss') = Schema.GenerateResponse.preview_urls response /\
    downloadUrl (store ss') =
      Some (Api.value (Api.getDownloadUrl env
                         (Schema.GenerateResponse.presentation_id response))) /\
    activeSlideIndex (store ss') = 0 /\
    promptHistory (store ss') = [prompt] /\
    isGenerating (store ss') = false.
Proof.
  destruct (generate_dispatch prompt numSlides ss) as [f Hgen].
  cbn [run step]. rewrite Hgen.
  change (List.length (inflight ss)) with
    (List.length (inflight (mkSession (merge [IsGenerating true; Error None] (store ss))
                                      (inflight ss) (network ss ++ [f])%list))).
  rewrite resume_await.
  eexists; split; [reflexivity|].
  repeat split.
Qed.

(** C3.  From a session whose [presentationId] is set, a [refine] call
    that succeeds replaces the presentation, [previewUrls] and
    [downloadUrl] from the response, leaves the stored [presentationId]
    as it was, puts the active slide back to 0 and appends the
    instruction to the history it found; [isRefining] is down again. *)
Theorem refine_success_appends_history
  (ss : Session) (instruction : string) (response : Schema.RefineResponse.t) :
  truthy_opt (presentationId (store ss)) = true ->
  exists ss',
    run env [Refine instruction;
             RefineSettles (List.length (inflight ss)) (Resolved response)] ss
    = Some ss' /\
    presentation (store ss') = Some (Schema.RefineResponse.presentation response) /\
    presentationId (store ss') = presentationId (store ss) /\
    previewUrls (store ss') = Schema.RefineResponse.preview_urls response /\
    downloadUrl (store ss') =
      Some (Api.value (Api.getDownloadUrl env
                         (Schema.RefineResponse.presentation_id response))) /\
    activeSlideIndex (store ss') = 0 /\
    promptHistory (store ss') = (promptHistory (store ss) ++ [instruction])%list /\
    isRefining (store ss') = false.
Proof.
  intros Hset.
  destruct (truthy_opt_Some _ Hset) as (pid & Hid & Hpid).
  destruct (refine_dispatch instruction pid ss Hid Hpid) as [f Href].
  cbn [run step]. rewrite Href.
  change (List.length (inflight ss)) with
    (List.length (inflight (mkSession (merge [IsRefining true; Error None] (store ss))
                                      (inflight ss) (network ss ++ [f])%list))).
  rewrite resume_await.
  eexists; split; [reflexivity|].
  repeat split.
Qed.

(** *** Failure *)

(** C1.  A [generate] call, or a [refine] call from a session whose
    [presentationId] is set, that fails leaves the presentation, the
    [presentationId] and the prompt history as they were before the call,
    has its busy flag down again, and records one error text in place of
    whatever [error] held: the message of the failure when it is an
    [Error] (as every failure of the transport is), the fixed text of the
    action otherwise.  The same holds of the failure alone, whenever it
    arrives: a call in flight that fails leaves the presentation, the
    [presentationId] and the history of that moment untouched. *)
Theorem failed_call_keeps_presentation (ss : Session) (err : Thrown) :
  (forall prompt numSlides,
    exists ss',
      run env [Generate prompt numSlides;
               GenerateSettles (List.length (inflight ss)) (Rejected err)] ss
      = Some ss' /\
      keeps_presentation (store ss) (store ss') /\
      isGenerating (store ss') = false /\
      error (store ss') = Some (message_or "Generation failed" err) /\
      (instanceof_Error err = true -> error (store ss') = Some (message err)))
  /\
  (truthy_opt (presentationId (store ss)) = true ->
   forall instruction,
    exists ss',
      run env [Refine instruction;
               RefineSettles (List.length (inflight ss)) (Rejected err)] ss
      = Some ss' /\
      keeps_presentation (store ss) (store ss') /\
      isRefining (store ss') = false /\
      error (store ss') = Some (message_or "Refinement failed" err) /\
      (instanceof_Error err = true -> error (store ss') = Some (message err)))
  /\
  (forall n prompt,
    nth_error (inflight ss) n = Some (GenerateCall prompt) ->
    exists ss',
      step env (GenerateSettles n (Rejected err)) ss = Some ss' /\
      keeps_presentation (store ss) (store ss') /\
      isGenerating (store ss') = false /\
      error (store ss') = Some (message_or "Generation failed" err))
  /\
  (forall n pid history instruction,
    nth_error (inflight ss) n = Some (RefineCall pid history instruction) ->
    exists ss',
      step env (RefineSettles n (Rejected err)) ss = Some ss' /\
      keeps_presentation (store ss) (store ss') /\
      isRefining (store ss') = false /\
      error (store ss') = Some (message_or "Refinement failed" err)).
Proof.
  split; [|split; [|split]].
  - intros prompt numSlides.
    destruct (generate_dispatch prompt numSlides ss) as [f Hgen].
    cbn [run step]. rewrite Hgen.
    change (List.length (inflight ss)) with
      (List.length (inflight (mkSession (merge [IsGenerating true; Error None] (store ss))
                                        (inflight ss) (network ss ++ [f])%list))).
    rewrite resume_await.
    eexists; split; [reflexivity|].
    repeat split. cbn. intros He. now rewrite message_or_Error.
  - intros Hset instruction.
    destruct (truthy_opt_Some _ Hset) as (pid & Hid & Hpid).
    destruct (refine_dispatch instruction pid ss Hid Hpid) as [f Href].
    cbn [run step]. rewrite Href.
    change (List.length (inflight ss)) with
      (List.length (inflight (mkSession (merge [IsRefining true; Error None] (store ss))
                                        (inflight ss) (network ss ++ [f])%list))).
    rewrite resume_await.
    eexists; split; [reflexivity|].
    repeat split. cbn. intros He. now rewrite message_or_Error.
  - intros n prompt Hn. cbn [step]. unfold resume. rewrite Hn.
    eexists; split; [reflexivity|]. repeat split.
  - intros n pid history instruction Hn. cbn [step]. unfold resume. rewrite Hn.
    eexists; split; [reflexivity|]. repeat split.
Qed.

(** *** Calls that are not made *)

(** C7.  With no [presentationId] in the store (null, or the empty string,
    which [!presentationId] treats alike), [refine] returns at once: the
    session is the one it was given, store, calls in flight and requests
    sent. *)
Theorem refine_without_presentation_is_noop (instruction : string) (ss : Session) :
  truthy_opt (presentationId (store ss)) = false ->
  refine env instruction ss = ss /\
  step env (Refine instruction) ss = Some ss /\
  network (refine env instruction ss) = network ss.
Proof.
  intros Hunset.
  assert (Hnoop : refine env instruction ss = ss).
  { unfold refine, get.
    destruct (presentationId (store ss)) as [pid|]; [|reflexivity].
    simpl in Hunset. now rewrite Hunset. }
  cbn [step]. now rewrite Hnoop.
Qed.

(** C8.  [reset] puts every field of the store back to its initial value,
    whatever the session was: no presentation, no [presentationId], no
    [downloadUrl], no [templateFile], no [error], empty [previewUrls] and
    [promptHistory], empty [prompt], active slide 0, both busy flags down
    and [generationMode] [from_scratch]; the store is Idle. *)
Theorem reset_returns_to_initial (ss : Session) :
  store (reset ss) =
    mkAppState "" false false None None [] None None 0 Schema.from_scratch None []
  /\ store (reset ss) = initial_state
  /\ phase (store (reset ss)) = Some Idle.
Proof.
  repeat split.
Qed.

(** *** Serialized use *)

Lemma serial_step_inv (e : Event) (ss ss' : Session) :
  serial_inv ss -> serial_step env e ss = Some ss' -> serial_inv ss'.
Proof.
  destruct ss as [s fl net]. unfold serial_inv, serial_step, quiet; simpl.
  destruct e; simpl.
  - (* setPrompt *)
    intros I H; inversion H; subst; clear H; simpl.
    destruct fl as [|[|] [|]]; auto.
  - (* setActiveSlide *)
    intros I H; inversion H; subst; clear H; simpl.
    destruct fl as [|[|] [|]]; auto.
  - (* setGenerationMode *)
    intros I H; inversion H; subst; clear H; simpl.
    destruct fl as [|[|] [|]]; auto.
  - (* setTemplateFile *)
    intros I H; inversion H; subst; clear H; simpl.
    destruct fl as [|[|] [|]]; auto.
  - (* generate *)
    destruct fl as [|k fl]; simpl; [|discriminate].
    intros [_ Hr] H; inversion H; subst; clear H; simpl. auto.
  - (* refine *)
    destruct fl as [|k fl]; simpl; [|discriminate].
    intros [Hg Hr] H; inversion H; subst; clear H.
    unfold refine, get; simpl.
    destruct (presentationId s) as [pid|]; simpl; [|auto].
    destruct (truthy pid); simpl; auto.
  - (* reset *)
    intros I H; inversion H; subst; clear H; simpl.
    destruct fl as [|[|] [|]]; auto.
  - (* a generate call settles *)
    unfold resume; simpl.
    destruct fl as [|[p|pid ph ins] [|k fl]]; simpl; try contradiction;
      destruct n as [|[|n]]; simpl; try discriminate.
    intros [Hr _] H; inversion H; subst; clear H.
    destruct settled; simpl; auto.
  - (* a refine call settles *)
    unfold resume; simpl.
    destruct fl as [|[p|pid ph ins] [|k fl]]; simpl; try contradiction;
      destruct n as [|[|n]]; simpl; try discriminate.
    intros [Hg _] H; inversion H; subst; clear H.
    destruct settled; simpl; auto.
Qed.

Lemma serial_run_inv (es : list Event) :
  forall ss ss', serial_inv ss -> serial_run env es ss = Some ss' -> serial_inv ss'.
Proof.
  induction es as [|e es IH]; simpl; intros ss ss' I H.
  - now inversion H; subst.
  - destruct (serial_step env e ss) as [mid|] eqn:E; [|discriminate].
    eapply IH; [|exact H]. eapply serial_step_inv; eauto.
Qed.

Lemma serially_reachable_inv (ss : Session) :
  serially_reachable env ss -> serial_inv ss.
Proof.
  intros [es H]. eapply serial_run_inv; [|exact H].
  unfold serial_inv; simpl; auto.
Qed.

(** A serialized run is a run. *)
Lemma serial_run_is_run (es : list Event) :
  forall ss ss', serial_run env es ss = Some ss' -> run env es ss = Some ss'.
Proof.
  induction es as [|e es IH]; simpl; intros ss ss' H; [exact H|].
  unfold serial_step in H.
  destruct (dispatches e && negb (quiet ss))%bool; [discriminate|].
  destruct (step env e ss) as [mid|]; [|discriminate]. now apply IH.
Qed.

(** C10, amended.  Invoking [generate], or [refine] with a
    [presentationId] set, puts [error] to null and raises the busy flag
    of the action before anything is known of the outcome; and along
    every serialized run, [error] is null for as long as a call is in
    flight.  (When calls overlap, the failure of one records its error
    while the other is still in flight.) *)
Theorem dispatch_clears_error :
  (forall ss prompt numSlides,
     error (store (generate env prompt numSlides ss)) = None /\
     isGenerating (store (generate env prompt numSlides ss)) = true) /\
  (forall ss instruction,
     truthy_opt (presentationId (store ss)) = true ->
     error (store (refine env instruction ss)) = None /\
     isRefining (store (refine env instruction ss)) = true) /\
  (forall ss,
     serially_reachable env ss -> inflight ss <> [] -> error (store ss) = None).
Proof.
  repeat apply conj.
  - intros ss prompt numSlides.
    destruct (generate_dispatch prompt numSlides ss) as [f ->]. split; reflexivity.
  - intros ss instruction Hset.
    destruct (truthy_opt_Some _ Hset) as (pid & Hid & Hpid).
    destruct (refine_dispatch instruction pid ss Hid Hpid) as [f ->].
    split; reflexivity.
  - intros ss Hreach Hbusy. pose proof (serially_reachable_inv ss Hreach) as I.
    unfold serial_inv in I. revert Hbusy I.
    destruct (inflight ss) as [|[p|pid ph ins] [|k fl]]; intros Hbusy I;
      try contradiction; try apply I.
Qed.

(** *** The busy guard *)

(** C5, amended.  While [isGenerating] is up, submitting again through
    the chat panel's [handleSubmit] does nothing, whatever the prompt:
    the session is the one it was given, with no request sent.  The
    guard is in that handler and looks at the flag [isGenerating] only:
    with the flag down and a prompt that is not blank it invokes
    [generate], also when a refine call is outstanding or a generate call
    is still in flight under a flag that [reset] has put down.  The
    store's [generate] has no guard and, from every session, sends one
    more request, parks one more call, raises [isGenerating] and clears
    [error]. *)
Theorem busy_guard_is_in_handleSubmit (ss : Session) (numSlides : option Z) :
  (isGenerating (store ss) = true ->
   Ui.handleSubmit env numSlides ss = ss) /\
  (isGenerating (store ss) = false ->
   truthy (trim (prompt (store ss))) = true ->
   Ui.handleSubmit env numSlides ss
   = generate env (trim (prompt (store ss))) numSlides ss) /\
  (forall prompt,
     exists f,
       network (generate env prompt numSlides ss) = (network ss ++ [f])%list /\
       inflight (generate env prompt numSlides ss)
       = (inflight ss ++ [GenerateCall prompt])%list /\
       isGenerating (store (generate env prompt numSlides ss)) = true /\
       error (store (generate env prompt numSlides ss)) = None).
Proof.
  unfold Ui.handleSubmit, get. repeat apply conj.
  - intros ->. now rewrite orb_true_r.
  - intros -> ->. reflexivity.
  - intros prompt.
    destruct (generate_dispatch prompt numSlides ss) as [f ->].
    exists f. repeat split.
Qed.

(** *** The active slide *)

(** C4, amended.  With a presentation in the store, [setActiveSlide]
    stores the index it is given, unclamped, so the active slide is one
    of the slides exactly when the index given is.  The index stays in
    range through the callers of the preview panel: [goNext] passes the
    minimum of the next index and the last one, [goPrev] the maximum of
    the previous index and 0, and a thumbnail its own position. *)
Theorem setActiveSlide_stores_index
  (index : Z) (ss : Session) (p : Schema.Presentation.t) :
  presentation (store ss) = Some p ->
  activeSlideIndex (store (setActiveSlide index ss)) = index /\
  (in_range (store (setActiveSlide index ss))
   <-> 0 <= index <= slideCount (store ss) - 1) /\
  (in_range (store ss) ->
   in_range (store (Ui.goNext ss)) /\
   in_range (store (Ui.goPrev ss)) /\
   forall idx, in_range (store (Ui.thumbClick idx ss))).
Proof.
  intros Hp. split; [|split].
  - reflexivity.
  - unfold in_range, slideCount; simpl. rewrite Hp. tauto.
  - unfold in_range, slideCount. rewrite Hp. intros [Hlo Hhi].
    unfold Ui.goNext, Ui.goPrev, Ui.thumbClick, get. rewrite Hp.
    repeat apply conj; simpl; rewrite ?Hp; try lia.
    intros idx.
    destruct (idx <? List.length (Schema.Presentation.slides p))%nat eqn:E;
      simpl; rewrite Hp.
    + apply Nat.ltb_lt in E. lia.
    + lia.
Qed.

(** *** The reference builders *)

(** C9.  [getDownloadUrl] and [getPreviewUrl] build a string from the
    base URL, the id and the slide index and send nothing: run on any log
    of requests they return the log as it was, and the string they return
    is the same whatever has been sent before, so two calls with the same
    arguments agree. *)
Theorem reference_builders_are_pure
  (id : string) (index : Z) (sent sent' : list Api.Fetch) :
  Api.getDownloadUrl env id sent
  = (Api.API_BASE env ++ "/api/download/" ++ id, sent) /\
  Api.getPreviewUrl env id index sent
  = (Api.API_BASE env ++ "/api/preview/" ++ id ++ "/" ++ String_ index, sent) /\
  fst (Api.getDownloadUrl env id sent) = fst (Api.getDownloadUrl env id sent') /\
  fst (Api.getPreviewUrl env id index sent)
  = fst (Api.getPreviewUrl env id index sent').
Proof.
  repeat split.
Qed.

End Properties.

(* ------------------------------------------------------------------ *)
(** ** The properties on the sample sessions *)

(** Closed facts about sample sessions are settled by evaluation. *)
Ltac evaluate :=
  vm_compute;
  first [ reflexivity | discriminate | intros [? ?]; discriminate ].

(** The generate scenario: a fresh store, one successful call. *)
Example generate_scenario :
  phase (store Samples.ready_p1) = Some Ready /\
  activeSlideIndex (store Samples.ready_p1) = 0 /\
  promptHistory (store Samples.ready_p1) = ["Make a 3-slide pitch deck"] /\
  presentationId (store Samples.ready_p1) = Some "p1" /\
  downloadUrl (store Samples.ready_p1)
  = Some "http://localhost:8000/api/download/p1" /\
  slideCount (store Samples.ready_p1) = 3 /\
  inflight Samples.ready_p1 = [] /\
  map Api.url (network Samples.ready_p1) = ["http://localhost:8000/api/generate"].
Proof.
  repeat apply conj; evaluate.
Qed.

(** What the transport makes of an HTTP 500: an [ApiError] whose message
    is the body, or the status text when the body is empty. *)
Example transport_failure_message :
  Api.after_fetch
    (Api.Answered (Api.mkResponse Schema.RefineResponse.t false 500
                     "Internal Server Error" "LLM quota exceeded"
                     (inl "Unexpected token")))
  = Rejected (ApiError 500 "LLM quota exceeded") /\
  Api.after_fetch
    (Api.Answered (Api.mkResponse Schema.RefineResponse.t false 500
                     "Internal Server Error" "" (inl "Unexpected end of input")))
  = Rejected (ApiError 500 "Internal Server Error").
Proof.
  split; reflexivity.
Qed.

(** Reset after a generate and a refine. *)
Example reset_scenario :
  let refined :=
    Samples.after [Generate Samples.pitch None;
                   GenerateSettles 0 (Resolved Samples.generated_p1);
                   Refine "Add pricing";
                   RefineSettles 0 (Resolved Samples.refined_p1)] in
  promptHistory (store refined) = [Samples.pitch; "Add pricing"] /\
  slideCount (store refined) = 4 /\
  store (reset refined) = initial_state.
Proof.
  repeat apply conj; evaluate.
Qed.

Lemma failed_call_keeps_presentation_witness :
  truthy_opt (presentationId (store Samples.ready_p1)) = true /\
  exists ss',
    run Samples.local
        [Refine "Add pricing"; RefineSettles 0 (Rejected Samples.server_error)]
        Samples.ready_p1 = Some ss' /\
    presentation (store ss') = Some Samples.deck3 /\
    presentationId (store ss') = Some "p1" /\
    promptHistory (store ss') = [Samples.pitch] /\
    isRefining (store ss') = false /\
    error (store ss') = Some "Internal Server Error".
Proof.
  split; [reflexivity|].
  destruct (failed_call_keeps_presentation Samples.local Samples.ready_p1
              Samples.server_error) as [_ Hrefine].
  destruct Hrefine as [Hrefine _].
  destruct (Hrefine eq_refl "Add pricing")
    as (ss' & Hrun & (Hp & Hid & Hh) & Hbusy & _ & Herr).
  exists ss'. repeat split; try assumption.
  apply Herr. reflexivity.
Defined.

Lemma refine_success_appends_history_witness :
  truthy_opt (presentationId (store Samples.ready_p1)) = true /\
  exists ss',
    run Samples.local
        [Refine "Add pricing"; RefineSettles 0 (Resolved Samples.refined_p1)]
        Samples.ready_p1 = Some ss' /\
    presentation (store ss') = Some Samples.deck4 /\
    presentationId (store ss') = Some "p1" /\
    activeSlideIndex (store ss') = 0 /\
    promptHistory (store ss') = [Samples.pitch; "Add pricing"].
Proof.
  split; [reflexivity|].
  destruct (refine_success_appends_history Samples.local Samples.ready_p1
              "Add pricing" Samples.refined_p1 eq_refl)
    as (ss' & Hrun & Hp & Hid & _ & _ & Hix & Hh & _).
  exists ss'. repeat split; assumption.
Defined.

Lemma refine_without_presentation_is_noop_witness :
  truthy_opt (presentationId (store initial)) = false /\
  refine Samples.local "Make the title bigger" initial = initial.
Proof.
  split; [reflexivity|].
  apply (refine_without_presentation_is_noop Samples.local
           "Make the title bigger" initial).
  reflexivity.
Defined.

Lemma dispatch_clears_error_witness :
  serially_reachable Samples.local Samples.refining /\
  inflight Samples.refining <> [] /\
  error (store Samples.refining) = None.
Proof.
  assert (Hreach : serially_reachable Samples.local Samples.refining).
  { exists [Generate Samples.pitch None;
            GenerateSettles 0 (Resolved Samples.generated_p1);
            Refine "Add pricing"].
    vm_compute. reflexivity. }
  assert (Hbusy : inflight Samples.refining <> []) by discriminate.
  split; [exact Hreach | split; [exact Hbusy|]].
  destruct (dispatch_clears_error Samples.local) as (_ & _ & Hnull).
  exact (Hnull Samples.refining Hreach Hbusy).
Defined.

Lemma busy_guard_is_in_handleSubmit_witness :
  (isGenerating (store Cases.submitted) = true /\
   truthy (trim (prompt (store Cases.submitted))) = true /\
   Ui.handleSubmit Samples.local (Some 3) Cases.submitted = Cases.submitted) /\
  (isGenerating (store Cases.abandoned) = false /\
   truthy (trim (prompt (store Cases.abandoned))) = true /\
   inflight Cases.abandoned = [GenerateCall Samples.pitch] /\
   inflight (Ui.handleSubmit Samples.local (Some 3) Cases.abandoned)
   = [GenerateCall Samples.pitch; GenerateCall "Start again"]).
Proof.
  split.
  - split; [evaluate|]. split; [evaluate|].
    destruct (busy_guard_is_in_handleSubmit Samples.local Cases.submitted (Some 3))
      as (Hnoop & _ & _).
    apply Hnoop. evaluate.
  - assert (Hdown : isGenerating (store Cases.abandoned) = false) by evaluate.
    assert (Htext : truthy (trim (prompt (store Cases.abandoned))) = true)
      by evaluate.
    split; [exact Hdown|]. split; [exact Htext|]. split; [evaluate|].
    destruct (busy_guard_is_in_handleSubmit Samples.local Cases.abandoned (Some 3))
      as (_ & Hgo & _).
    rewrite (Hgo Hdown Htext). evaluate.
Defined.

Lemma setActiveSlide_stores_index_witness :
  presentation (store Samples.ready_p1) = Some Samples.deck3 /\
  activeSlideIndex (store (setActiveSlide 2 Samples.ready_p1)) = 2 /\
  in_range (store (Ui.goNext Samples.ready_p1)).
Proof.
  split; [reflexivity|].
  destruct (setActiveSlide_stores_index 2 Samples.ready_p1 Samples.deck3 eq_refl)
    as (Hix & _ & Hcallers).
  split; [exact Hix|].
  assert (Hin : in_range (store Samples.ready_p1)).
  { assert (Hat : activeSlideIndex (store Samples.ready_p1) = 0) by evaluate.
    assert (Hn : slideCount (store Samples.ready_p1) = 3) by evaluate.
    unfold in_range. rewrite Hat, Hn. lia. }
  destruct (Hcallers Hin) as (Hnext & _ & _). exact Hnext.
Defined.

(** *** Where the store departs from the specification *)

(** C4 as stated fails: on the three-slide deck, [setActiveSlide(-1)]
    leaves [-1] and [setActiveSlide(3)] leaves [3] in the store, where
    clamping into [[0, 2]] would give [0] and [2]. *)
Lemma setActiveSlide_out_of_range :
  slideCount (store Samples.ready_p1) = 3 /\
  activeSlideIndex (store (setActiveSlide (-1) Samples.ready_p1)) = -1 /\
  clamp 0 (slideCount (store Samples.ready_p1) - 1) (-1) = 0 /\
  activeSlideIndex (store (setActiveSlide (-1) Samples.ready_p1))
  <> clamp 0 (slideCount (store Samples.ready_p1) - 1) (-1) /\
  activeSlideIndex (store (setActiveSlide 3 Samples.ready_p1)) = 3 /\
  clamp 0 (slideCount (store Samples.ready_p1) - 1) 3 = 2 /\
  ~ in_range (store (setActiveSlide 3 Samples.ready_p1)).
Proof.
  repeat apply conj; try evaluate.
  assert (Hat : activeSlideIndex (store (setActiveSlide 3 Samples.ready_p1)) = 3)
    by evaluate.
  assert (Hn : slideCount (store (setActiveSlide 3 Samples.ready_p1)) = 3)
    by evaluate.
  unfold in_range. rewrite Hat, Hn. lia.
Qed.

(** C5 as stated fails: with a generate call outstanding, [generate]
    sends a second request and parks a second call; with a refine call
    outstanding it also changes the store. *)
Lemma generate_while_busy_dispatches :
  isGenerating (store Samples.generating) = true /\
  List.length (network Samples.generating) = 1%nat /\
  List.length (network (generate Samples.local "Start again" None Samples.generating))
  = 2%nat /\
  inflight (generate Samples.local "Start again" None Samples.generating)
  = [GenerateCall Samples.pitch; GenerateCall "Start again"] /\
  generate Samples.local "Start again" None Samples.generating <> Samples.generating /\
  isRefining (store Samples.refining) = true /\
  isGenerating (store Samples.refining) = false /\
  isGenerating (store (generate Samples.local "Start again" None Samples.refining))
  = true /\
  store (generate Samples.local "Start again" None Samples.refining)
  <> store Samples.refining.
Proof.
  repeat apply conj; evaluate.
Qed.

(** C6 as stated fails: [generate] invoked while a refine is in flight
    leaves both busy flags up, in a session reached from the initial one
    by store actions alone. *)
Lemma both_flags_up_reachable :
  reachable Samples.local Samples.both_busy /\
  isGenerating (store Samples.both_busy) = true /\
  isRefining (store Samples.both_busy) = true /\
  phase (store Samples.both_busy) = None.
Proof.
  split; [|repeat apply conj; evaluate].
  exists [Generate Samples.pitch None;
          GenerateSettles 0 (Resolved Samples.generated_p1);
          Refine "Add pricing"; Generate "Start again" None].
  vm_compute. reflexivity.
Qed.

(** C10 as stated fails: of two overlapping generate calls the older
    fails, and its error is in the store while the younger is in flight.
    The chat panel alone gets there too: refine, start over, submit a new
    prompt, and the refine left behind fails. *)
Lemma error_recorded_while_in_flight :
  run Samples.local
      [Generate Samples.pitch None; Generate "Start again" None;
       GenerateSettles 0 (Rejected Samples.server_error)] initial
  = Some Samples.failed_while_busy /\
  inflight Samples.failed_while_busy = [GenerateCall "Start again"] /\
  error (store Samples.failed_while_busy) = Some "Internal Server Error" /\
  run Samples.local
      [Generate Samples.pitch None;
       GenerateSettles 0 (Resolved Samples.generated_p1);
       Refine "Add pricing"; DoReset; SetPrompt "Start again";
       Generate "Start again" None;
       RefineSettles 0 (Rejected Samples.server_error)] initial
  = Some Samples.stale_failure /\
  inflight Samples.stale_failure = [GenerateCall "Start again"] /\
  isGenerating (store Samples.stale_failure) = true /\
  error (store Samples.stale_failure) = Some "Internal Server Error".
Proof.
  repeat apply conj; evaluate.
Qed.

(* ------------------------------------------------------------------ *)
(** ** Further properties of the store and of the transport *)

(** *** Strings *)

Lemma append_cancel (p a b : string) : p ++ a = p ++ b -> a = b.
Proof.
  induction p as [|c p IH]; simpl; intros H; [exact H|].
  inversion H. auto.
Qed.

Lemma truthy_append (a b : string) : truthy a = true -> truthy (a ++ b) = true.
Proof.
  destruct a; simpl; [discriminate | reflexivity].
Qed.

Lemma API_BASE_truthy (env : option string) : truthy (Api.API_BASE env) = true.
Proof.
  unfold Api.API_BASE, or_else.
  destruct env as [u|]; [|reflexivity].
  destruct (truthy u) eqn:E; [exact E | reflexivity].
Qed.

(** [String(n)] tells integers apart. *)
Lemma String_inj (n m : Z) : String_ n = String_ m -> n = m.
Proof.
  unfold String_. intros H.
  apply DecimalZ.to_int_inj.
  assert (Hn : forall z, NilZero.int_of_string (NilZero.string_of_int (Z.to_int z))
                         = Some (Z.to_int z)).
  { intros z. apply NilZero.isi; destruct z; simpl; try discriminate;
      intros E; inversion E as [E'];
      now apply DecimalPos.Unsigned.to_uint_nonnil in E'. }
  pose proof (Hn n) as H1. rewrite H in H1. rewrite Hn in H1.
  now inversion H1.
Qed.

(** *** Calls in flight *)

Lemma resume_Some (n : nat) (ss ss0 : Session) (k : Pending) :
  resume n ss = Some (k, ss0) ->
  nth_error (inflight ss) n = Some k /\
  ss0 = mkSession (store ss) (remove_nth n (inflight ss)) (network ss).
Proof.
  unfold resume. destruct (nth_error (inflight ss) n) as [k'|]; [|discriminate].
  intros H; inversion H; subst; auto.
Qed.

Lemma existsb_remove_nth {A} (f : A -> bool) (n : nat) (l : list A) (k : A) :
  nth_error l n = Some k -> f k = false ->
  existsb f (remove_nth n l) = existsb f l.
Proof.
  revert n; induction l as [|a l IH]; intros [|n]; simpl; try discriminate.
  - intros H Hk; inversion H; subst. now rewrite Hk.
  - intros H Hk. now rewrite (IH n H Hk).
Qed.

Lemma Forall_remove_nth {A} (P : A -> Prop) (n : nat) (l : list A) :
  Forall P l -> Forall P (remove_nth n l).
Proof.
  revert n; induction l as [|a l IH]; intros n H; [destruct n; constructor|].
  inversion H; subst. destruct n; simpl; auto.
Qed.

Lemma length_remove_nth {A} (n : nat) (l : list A) (k : A) :
  nth_error l n = Some k -> S (List.length (remove_nth n l)) = List.length l.
Proof.
  revert n; induction l as [|a l IH]; intros [|n]; simpl; try discriminate; auto.
Qed.

Section Coverage.

Variable env : option string.

(** *** What goes onto the network *)

(** The request [generate] sends, spelled out. *)
Lemma generate_unfolded (prompt : string) (numSlides : option Z) (ss : Session) :
  generate env prompt numSlides ss =
  await (GenerateCall prompt)
    (mkSession
       (merge [IsGenerating true; Error None] (store ss))
       (inflight ss)
       (network ss ++
        [Api.mkFetch (Api.API_BASE env ++ "/api/generate") (Some "POST") false
           (Some (Api.Multipart
              ([("prompt", Api.FormText prompt)] ++
               match numSlides with
               | Some n => [("num_slides", Api.FormText (String_ n))]
               | None => []
               end ++
               [("generation_mode",
                 Api.FormText (Schema.mode_name (generationMode (store ss))))] ++
               match templateFile (store ss) with
               | Some f => [("file", Api.FormFile f)]
               | None => []
               end)%list))])%list).
Proof.
  unfold generate, call, set, get; simpl.
  unfold Api.generatePresentation, Api.requestMultipart, Api.fetch; simpl.
  destruct numSlides, (templateFile (store ss)); reflexivity.
Qed.

(** The two ways of [refine]. *)
Lemma refine_unfolded (instruction : string) (ss : Session) :
  (truthy_opt (presentationId (store ss)) = false /\
   refine env instruction ss = ss) \/
  (exists id,
     presentationId (store ss) = Some id /\ truthy id = true /\
     refine env instruction ss =
     await (RefineCall id (promptHistory (store ss)) instruction)
       (mkSession
          (merge [IsRefining true; Error None] (store ss))
          (inflight ss)
          (network ss ++
           [Api.mkFetch (Api.API_BASE env ++ "/api/refine/" ++ id) (Some "POST") true
              (Some (Api.Json [("instruction", instruction)]))])%list)).
Proof.
  unfold refine, get.
  destruct (presentationId (store ss)) as [id|]; simpl; [|left; auto].
  destruct (truthy id) eqn:E; simpl; [right | left; auto].
  exists id. split; [reflexivity|]. split; [exact E|].
  unfold call, set; simpl.
  unfold Api.refinePresentation, Api.request, Api.fetch. reflexivity.
Qed.

(** X1.  [generate] sends exactly one request: a POST of a multipart
    form to [/api/generate] under the base URL, carrying the prompt, the
    number of slides when one is given, the generation mode of the store
    and the template file of the store; the file goes along whenever the
    store holds one, whatever the mode. *)
Theorem generate_sends_form (prompt : string) (numSlides : option Z) (ss : Session) :
  exists form,
    network (generate env prompt numSlides ss) =
    (network ss ++
     [Api.mkFetch (Api.API_BASE env ++ "/api/generate") (Some "POST") false
        (Some (Api.Multipart form))])%list /\
    form =
    ([("prompt", Api.FormText prompt)] ++
     match numSlides with
     | Some n => [("num_slides", Api.FormText (String_ n))]
     | None => []
     end ++
     [("generation_mode",
       Api.FormText (Schema.mode_name (generationMode (store ss))))] ++
     match templateFile (store ss) with
     | Some f => [("file", Api.FormFile f)]
     | None => []
     end)%list /\
    (forall f, templateFile (store ss) = Some f -> In ("file", Api.FormFile f) form) /\
    (templateFile (store ss) = None ->
     forall f, ~ In ("file", Api.FormFile f) form).
Proof.
  rewrite generate_unfolded. eexists; split; [reflexivity|]. split; [reflexivity|].
  split.
  - intros f ->. apply in_or_app; right. apply in_or_app; right.
    apply in_or_app; right. now left.
  - intros -> f Hin.
    destruct numSlides; simpl in Hin;
      repeat (destruct Hin as [Hin|Hin]; [discriminate Hin|]); exact Hin.
Qed.

(** X2.  With a [presentationId] in the store, [refine] sends exactly
    one request: a JSON POST to [/api/refine/<that id>] under the base
    URL whose body holds the instruction and nothing else; it parks one
    call that remembers the history of that moment. *)
Theorem refine_sends_json (instruction id : string) (ss : Session) :
  presentationId (store ss) = Some id -> truthy id = true ->
  network (refine env instruction ss) =
    (network ss ++
     [Api.mkFetch (Api.API_BASE env ++ "/api/refine/" ++ id) (Some "POST") true
        (Some (Api.Json [("instruction", instruction)]))])%list /\
  inflight (refine env instruction ss) =
    (inflight ss ++ [RefineCall id (promptHistory (store ss)) instruction])%list.
Proof.
  intros Hid Hset.
  destruct (refine_unfolded instruction ss) as [[Hno _] | (id' & Hid' & _ & ->)].
  - rewrite Hid in Hno; simpl in Hno. congruence.
  - rewrite Hid in Hid'; inversion Hid'; subst. split; reflexivity.
Qed.

(** *** How a response becomes an outcome *)

(** X3.  The transport resolves exactly when the response is [ok] and
    its body parses, and then with the parsed value.  Every other way
    ends in a rejection by an [Error]: an [ApiError] with the status of
    the response and its body (the status text when the body is empty)
    when the response is not [ok], whatever the body would parse to. *)
Theorem transport_outcomes (T : Type) (r : Api.Fetched T) :
  (forall v,
     Api.after_fetch r = Resolved v <->
     exists res, r = Api.Answered res /\ Api.ok res = true /\ Api.json res = inr v) /\
  (forall err, Api.after_fetch r = Rejected err -> instanceof_Error err = true) /\
  (forall res,
     r = Api.Answered res -> Api.ok res = false ->
     Api.after_fetch r =
     Rejected (ApiError (Api.status res)
                 (or_else (Api.text res) (Api.statusText res)))).
Proof.
  split; [|split].
  - intros v; split.
    + destruct r as [res|m]; simpl; [|discriminate].
      destruct (Api.ok res) eqn:Hok; simpl; [|discriminate].
      destruct (Api.json res) as [m|v'] eqn:Hj; [discriminate|].
      intros H; inversion H; subst. exists res; auto.
    + intros (res & -> & Hok & Hj). simpl. now rewrite Hok, Hj.
  - intros err. apply after_fetch_rejects_with_Error.
  - intros res -> Hok. simpl. now rewrite Hok.
Qed.

(** X4.  What the user reads after a call has failed.  When the call
    parked at [n] is a generate call and the server answers with a
    status that is not [ok], the store shows the body of the answer, or
    its status text when the body is empty; when the answer is [ok] but
    does not parse, the message of the parser; when there is no answer,
    the message of the network failure.  The fallback text is never
    shown, and the deck, its identity and the history stay. *)
Theorem transport_failure_shown
  (ss : Session) (n : nat) (prompt : string)
  (r : Api.Fetched Schema.GenerateResponse.t) (err : Thrown) :
  nth_error (inflight ss) n = Some (GenerateCall prompt) ->
  Api.after_fetch r = Rejected err ->
  exists ss',
    step env (GenerateSettles n (Api.after_fetch r)) ss = Some ss' /\
    keeps_presentation (store ss) (store ss') /\
    isGenerating (store ss') = false /\
    error (store ss') = Some (message err) /\
    (forall res, r = Api.Answered res -> Api.ok res = false ->
       error (store ss') = Some (or_else (Api.text res) (Api.statusText res))) /\
    (forall res m, r = Api.Answered res -> Api.ok res = true ->
       Api.json res = inl m -> error (store ss') = Some m) /\
    (forall m, r = Api.Unreachable m -> error (store ss') = Some m).
Proof.
  intros Hn Hrej. rewrite Hrej. cbn [step]. unfold resume. rewrite Hn.
  eexists; split; [reflexivity|].
  pose proof (after_fetch_rejects_with_Error r err Hrej) as HE.
  assert (Hm : message_or "Generation failed" err = message err)
    by now apply message_or_Error.
  split; [repeat split|]. split; [reflexivity|].
  cbn. rewrite Hm. split; [reflexivity|].
  split; [|split].
  - intros res -> Hok. simpl in Hrej. rewrite Hok in Hrej.
    inversion Hrej; reflexivity.
  - intros res m -> Hok Hj. simpl in Hrej. rewrite Hok, Hj in Hrej.
    inversion Hrej; reflexivity.
  - intros m ->. inversion Hrej; reflexivity.
Qed.

(** *** Invariants of every reachable session *)

Lemma run_invariant (P : Session -> Prop) :
  (forall e ss ss', P ss -> step env e ss = Some ss' -> P ss') ->
  forall es ss ss', P ss -> run env es ss = Some ss' -> P ss'.
Proof.
  intros Hstep es; induction es as [|e es IH]; simpl; intros ss ss' HP H.
  - now inversion H; subst.
  - destruct (step env e ss) as [mid|] eqn:E; [|discriminate].
    eapply IH; [|exact H]. eapply Hstep; eauto.
Qed.

Lemma reachable_invariant (P : Session -> Prop) :
  P initial ->
  (forall e ss ss', P ss -> step env e ss = Some ss' -> P ss') ->
  forall ss, reachable env ss -> P ss.
Proof.
  intros H0 Hstep ss [es H]. eapply run_invariant; eauto.
Qed.

Lemma run_app (es es' : list Event) (ss mid ss' : Session) :
  run env es ss = Some mid -> run env es' mid = Some ss' ->
  run env (es ++ es') ss = Some ss'.
Proof.
  revert ss; induction es as [|e es IH]; simpl; intros ss H H'.
  - now inversion H; subst.
  - destruct (step env e ss) as [next|]; [|discriminate]. now apply IH.
Qed.

(** Every way in which a step can end, with the new session spelled out. *)
Ltac step_cases H :=
  match type of H with
  | step _ ?e ?ss = Some ?ss' =>
      destruct e as [p | ix | gm | tf | p ns | ins | | n settled | n settled];
      cbn [step] in H;
      [ inversion H; subst ss'; clear H
      | inversion H; subst ss'; clear H
      | inversion H; subst ss'; clear H
      | inversion H; subst ss'; clear H
      | rewrite generate_unfolded in H; inversion H; subst ss'; clear H
      | let Hno := fresh "Hno" in
        let id := fresh "id" in
        let Hid := fresh "Hid" in
        let Hset := fresh "Hset" in
        let Heq := fresh "Heq" in
        destruct (refine_unfolded ins ss)
          as [[Hno Heq] | (id & Hid & Hset & Heq)];
        rewrite Heq in H; inversion H; subst ss'; clear H Heq
      | inversion H; subst ss'; clear H
      | let R := fresh "R" in
        let k := fresh "k" in
        let ss0 := fresh "ss0" in
        let Hn := fresh "Hn" in
        destruct (resume n ss) as [[k ss0]|] eqn:R; [|discriminate H];
        apply resume_Some in R; destruct R as [Hn ->];
        destruct k; [|discriminate H];
        destruct settled; inversion H; subst ss'; clear H
      | let R := fresh "R" in
        let k := fresh "k" in
        let ss0 := fresh "ss0" in
        let Hn := fresh "Hn" in
        destruct (resume n ss) as [[k ss0]|] eqn:R; [|discriminate H];
        apply resume_Some in R; destruct R as [Hn ->];
        destruct k; [discriminate H|];
        destruct settled; inversion H; subst ss'; clear H ]
  end.

Lemma flags_backed_step (e : Event) (ss ss' : Session) :
  Invariants.flags_backed ss -> step env e ss = Some ss' ->
  Invariants.flags_backed ss'.
Proof.
  unfold Invariants.flags_backed. intros [Ig Ir] H.
  step_cases H; unfold await; cbn; rewrite ?existsb_app; cbn;
    rewrite ?orb_true_r, ?orb_false_r;
    try (split; [exact Ig | exact Ir]);
    try (split; [intros; reflexivity | exact Ir]);
    try (split; [exact Ig | intros; reflexivity]);
    try (split; discriminate).
  - split; [discriminate|].
    rewrite (existsb_remove_nth Invariants.is_refine n _ _ Hn eq_refl). exact Ir.
  - split; [discriminate|].
    rewrite (existsb_remove_nth Invariants.is_refine n _ _ Hn eq_refl). exact Ir.
  - split; [|discriminate].
    rewrite (existsb_remove_nth Invariants.is_generate n _ _ Hn eq_refl). exact Ig.
  - split; [|discriminate].
    rewrite (existsb_remove_nth Invariants.is_generate n _ _ Hn eq_refl). exact Ig.
Qed.

Lemma coherent_step (e : Event) (ss ss' : Session) :
  Invariants.coherent env (store ss) -> step env e ss = Some ss' ->
  Invariants.coherent env (store ss').
Proof.
  unfold Invariants.coherent. intros (Id & Ih & Ii & Iu) H.
  step_cases H; unfold await; cbn;
    try (split; [exact Id | split; [exact Ih | split; [exact Ii | exact Iu]]]).
  - (* reset *)
    repeat split; auto; discriminate.
  - (* a generate call resolves *)
    split; [split; discriminate|]. split; [split; discriminate|].
    split; [discriminate|].
    intros u Hu; inversion Hu; subst. eexists; reflexivity.
  - (* a refine call resolves *)
    split; [split; discriminate|].
    split; [split; [discriminate | intros E; now apply app_eq_nil in E as [_ E']]|].
    split; [discriminate|].
    intros u Hu; inversion Hu; subst. eexists; reflexivity.
Qed.

Lemma requests_step (e : Event) (ss ss' : Session) :
  Forall (Invariants.store_request env) (network ss) ->
  step env e ss = Some ss' ->
  Forall (Invariants.store_request env) (network ss').
Proof.
  intros I H.
  step_cases H; unfold await; cbn; try exact I.
  - apply Forall_app; split; [exact I|]. constructor; [|constructor].
    split; [reflexivity | left; reflexivity].
  - apply Forall_app; split; [exact I|]. constructor; [|constructor].
    split; [reflexivity | right; exists id; auto].
Qed.

(** X5.  In every session that the store can reach, by any interleaving
    of actions and settlements, a busy flag that is up has a call of its
    kind in flight: the flag cannot stay up once every call has
    settled. *)
Theorem busy_flag_has_call_in_flight (ss : Session) :
  reachable env ss ->
  (isGenerating (store ss) = true ->
   exists prompt, In (GenerateCall prompt) (inflight ss)) /\
  (isRefining (store ss) = true ->
   exists id history instruction,
     In (RefineCall id history instruction) (inflight ss)) /\
  (inflight ss = [] ->
   isGenerating (store ss) = false /\ isRefining (store ss) = false).
Proof.
  intros Hreach.
  assert (I : Invariants.flags_backed ss).
  { revert ss Hreach. apply reachable_invariant.
    - split; discriminate.
    - apply flags_backed_step. }
  destruct I as [Ig Ir]. split; [|split].
  - intros Hup. apply Ig, existsb_exists in Hup as ([p|? ? ?] & Hin & Hk);
      [eauto | discriminate].
  - intros Hup. apply Ir, existsb_exists in Hup as ([p|id h i] & Hin & Hk);
      [discriminate | eauto].
  - intros Hnone. rewrite Hnone in Ig, Ir; simpl in Ig, Ir.
    destruct (isGenerating (store ss)), (isRefining (store ss)); split; auto;
      solve [discriminate (Ig eq_refl) | discriminate (Ir eq_refl)].
Qed.

(** X6.  In every reachable session the deck, the download link and the
    prompt history are there together or not at all, a [presentationId]
    is only there with a deck, and the download link is the download URL
    of some id. *)
Theorem deck_link_history_together (ss : Session) :
  reachable env ss ->
  (presentation (store ss) = None <-> downloadUrl (store ss) = None) /\
  (presentation (store ss) = None <-> promptHistory (store ss) = []) /\
  (presentation (store ss) = None -> presentationId (store ss) = None) /\
  (forall u, downloadUrl (store ss) = Some u ->
     exists id, u = Api.value (Api.getDownloadUrl env id)).
Proof.
  intros Hreach.
  assert (I : Invariants.coherent env (store ss)).
  { revert ss Hreach.
    apply (reachable_invariant (fun ss => Invariants.coherent env (store ss))).
    - repeat split; auto; discriminate.
    - apply coherent_step. }
  exact I.
Qed.

(** X7.  In every reachable session [downloadPptx] opens a tab exactly
    when there is a deck, and then it opens the download URL of some id
    in a new tab. *)
Theorem download_opens_iff_deck (ss : Session) :
  reachable env ss ->
  (Download.downloadPptx ss = None <-> presentation (store ss) = None) /\
  (forall u target,
     Download.downloadPptx ss = Some (u, target) ->
     target = "_blank" /\
     exists id, u = Api.API_BASE env ++ "/api/download/" ++ id).
Proof.
  intros Hreach.
  assert (I : Invariants.coherent env (store ss)).
  { revert ss Hreach.
    apply (reachable_invariant (fun ss => Invariants.coherent env (store ss))).
    - repeat split; auto; discriminate.
    - apply coherent_step. }
  destruct I as (Id & _ & _ & Iu).
  unfold Download.downloadPptx, get.
  destruct (downloadUrl (store ss)) as [u|] eqn:Hu.
  - destruct (Iu u eq_refl) as [id ->].
    rewrite truthy_append by apply API_BASE_truthy.
    split.
    + split; [discriminate|]. intros Hp. apply Id in Hp. discriminate.
    + intros u' target H; inversion H; subst. split; [reflexivity | eauto].
  - split.
    + split; [intros _; now apply Id | reflexivity].
    + intros u' target H; discriminate.
Qed.

(** X8.  Only [generate] and [refine] send anything, one request at a
    time: a step leaves the log of requests as it was, or, when it is one
    of these two actions, adds one request at its end.  Nothing already
    sent is dropped or changed, and a settlement sends nothing. *)
Theorem only_dispatch_sends (e : Event) (ss ss' : Session) :
  step env e ss = Some ss' ->
  network ss' = network ss \/
  (dispatches e = true /\ exists f, network ss' = (network ss ++ [f])%list).
Proof.
  intros H.
  step_cases H; unfold await; cbn; auto; right; split; eauto.
Qed.

(** X9.  Everything the store has sent, in any reachable session, is a
    POST to [/api/generate] or to [/api/refine/<id>] with a non-empty id
    under the base URL (so never the GET of [healthCheck]), and no more
    calls are in flight than requests were sent. *)
Theorem requests_are_store_posts (ss : Session) :
  reachable env ss ->
  Forall (fun f =>
            Api.method f = Some "POST" /\
            (Api.url f = Api.API_BASE env ++ "/api/generate" \/
             exists id, truthy id = true /\
               Api.url f = Api.API_BASE env ++ "/api/refine/" ++ id))
         (network ss) /\
  (List.length (inflight ss) <= List.length (network ss))%nat.
Proof.
  intros Hreach. split.
  - revert ss Hreach.
    apply (reachable_invariant
             (fun ss => Forall (Invariants.store_request env) (network ss))).
    + constructor.
    + apply requests_step.
  - revert ss Hreach.
    apply (reachable_invariant
             (fun ss => (List.length (inflight ss) <= List.length (network ss))%nat)).
    + simpl; lia.
    + intros e ss ss' I H.
      step_cases H; unfold await; cbn; rewrite ?length_app; cbn; try lia;
        pose proof (length_remove_nth _ _ _ Hn); lia.
Qed.

(** X10.  [reset] cancels nothing.  The calls in flight stay in flight,
    and when one of them resolves after the reset its result lands in
    the cleared store: a generate call brings back a full deck; a refine
    call brings back a deck and the history it had captured, but no
    [presentationId], so that every later [refine] does nothing. *)
Theorem reset_does_not_cancel (ss : Session) (n : nat) :
  inflight (reset ss) = inflight ss /\
  (forall prompt response,
     nth_error (inflight ss) n = Some (GenerateCall prompt) ->
     exists ss',
       run env [DoReset; GenerateSettles n (Resolved response)] ss = Some ss' /\
       presentation (store ss') = Some (Schema.GenerateResponse.presentation response) /\
       presentationId (store ss')
       = Some (Schema.GenerateResponse.presentation_id response) /\
       promptHistory (store ss') = [prompt]) /\
  (forall id history instruction response,
     nth_error (inflight ss) n = Some (RefineCall id history instruction) ->
     exists ss',
       run env [DoReset; RefineSettles n (Resolved response)] ss = Some ss' /\
       presentation (store ss') = Some (Schema.RefineResponse.presentation response) /\
       presentationId (store ss') = None /\
       promptHistory (store ss') = (history ++ [instruction])%list /\
       forall later, refine env later ss' = ss').
Proof.
  split; [reflexivity|]. split.
  - intros prompt response Hn. cbn [run step]. unfold resume.
    change (inflight (reset ss)) with (inflight ss). rewrite Hn.
    eexists; split; [reflexivity|]. repeat split.
  - intros id history instruction response Hn. cbn [run step]. unfold resume.
    change (inflight (reset ss)) with (inflight ss). rewrite Hn.
    eexists; split; [reflexivity|].
    split; [reflexivity|]. split; [reflexivity|]. split; [reflexivity|].
    intros later.
    destruct (refine_unfolded later
                (refine_settled env history instruction (Resolved response)
                   (mkSession (store (reset ss)) (remove_nth n (inflight ss))
                      (network (reset ss)))))
      as [[_ Heq] | (id' & Hid' & _)]; [exact Heq | discriminate Hid'].
Qed.

(** *** The reference builders *)

(** X11.  Download URLs tell ids apart, the preview URLs of one deck
    tell slide indices apart, and no download URL is a preview URL. *)
Theorem reference_urls_distinct (id id' : string) (i j : Z) :
  (Api.value (Api.getDownloadUrl env id) = Api.value (Api.getDownloadUrl env id') ->
   id = id') /\
  (Api.value (Api.getPreviewUrl env id i) = Api.value (Api.getPreviewUrl env id j) ->
   i = j) /\
  Api.value (Api.getDownloadUrl env id) <> Api.value (Api.getPreviewUrl env id' i).
Proof.
  unfold Api.value, Api.getDownloadUrl, Api.getPreviewUrl, Api.ret; simpl.
  split; [|split].
  - intros H. apply append_cancel in H. now inversion H.
  - intros H. apply append_cancel in H. inversion H as [H'].
    apply append_cancel in H'. inversion H' as [H''].
    now apply String_inj.
  - intros H. apply append_cancel in H. discriminate H.
Qed.

(** *** The preview panel *)

Lemma at_Some {A} (xs : list A) (i : Z) :
  0 <= i <= Z.of_nat (List.length xs) - 1 -> exists x, Preview.at_ xs i = Some x.
Proof.
  intros [Hlo Hhi]. unfold Preview.at_.
  destruct (i <? 0) eqn:E; [apply Z.ltb_lt in E; lia|].
  destruct (nth_error xs (Z.to_nat i)) as [x|] eqn:N; [eauto|].
  apply nth_error_None in N. lia.
Qed.

Lemma at_bounds {A} (xs : list A) (i : Z) (x : A) :
  Preview.at_ xs i = Some x -> 0 <= i <= Z.of_nat (List.length xs) - 1.
Proof.
  unfold Preview.at_. destruct (i <? 0) eqn:E; [discriminate|].
  apply Z.ltb_ge in E. intros N.
  assert (Hn : nth_error xs (Z.to_nat i) <> None) by congruence.
  apply nth_error_Some in Hn. lia.
Qed.

Lemma in_range_has_deck (s : AppState) :
  in_range s ->
  exists p, presentation s = Some p /\
    0 <= activeSlideIndex s <= Z.of_nat (List.length (Schema.Presentation.slides p)) - 1.
Proof.
  unfold in_range, slideCount.
  destruct (presentation s) as [p|]; [eauto | lia].
Qed.

Lemma set_index_twice (a b : Z) (ss : Session) :
  activeSlideIndex (store ss) = b ->
  setActiveSlide b (setActiveSlide a ss) = ss.
Proof.
  intros <-. destruct ss as [[] fl net]; reflexivity.
Qed.

Lemma set_index_same (ss : Session) :
  setActiveSlide (activeSlideIndex (store ss)) ss = ss.
Proof.
  destruct ss as [[] fl net]; reflexivity.
Qed.

(** X12.  With the cursor on a slide, each navigation button is
    disabled exactly when pressing it would change nothing: [goNext]
    moves one slide on unless the cursor is on the last slide, where it
    leaves the session as it is, and [goPrev] moves one slide back
    unless the cursor is on the first; going on and back, or back and
    on, returns to the same session. *)
Theorem navigation_round_trip (ss : Session) :
  in_range (store ss) ->
  (Preview.nextDisabled (store ss) = false ->
   activeSlideIndex (store (Ui.goNext ss)) = activeSlideIndex (store ss) + 1 /\
   Ui.goPrev (Ui.goNext ss) = ss) /\
  (Preview.nextDisabled (store ss) = true -> Ui.goNext ss = ss) /\
  (Preview.prevDisabled (store ss) = false ->
   activeSlideIndex (store (Ui.goPrev ss)) = activeSlideIndex (store ss) - 1 /\
   Ui.goNext (Ui.goPrev ss) = ss) /\
  (Preview.prevDisabled (store ss) = true -> Ui.goPrev ss = ss).
Proof.
  intros Hin. destruct (in_range_has_deck _ Hin) as (p & Hp & Hlo & Hhi).
  unfold Preview.nextDisabled, Preview.prevDisabled. rewrite Hp.
  set (last := Z.of_nat (List.length (Schema.Presentation.slides p)) - 1) in *.
  assert (Hnext : Ui.goNext ss
                  = setActiveSlide (Z.min (activeSlideIndex (store ss) + 1) last) ss).
  { unfold Ui.goNext, get. now rewrite Hp. }
  assert (Hprev : Ui.goPrev ss
                  = setActiveSlide (Z.max (activeSlideIndex (store ss) - 1) 0) ss).
  { unfold Ui.goPrev, get. now rewrite Hp. }
  assert (Hdeck : forall v, presentation (store (setActiveSlide v ss)) = Some p)
    by (intros v; exact Hp).
  split; [|split; [|split]].
  - intros E. apply Z.leb_gt in E. rewrite Hnext.
    rewrite Z.min_l by lia. split; [reflexivity|].
    unfold Ui.goPrev, get. rewrite Hdeck. cbn [activeSlideIndex store setActiveSlide set merge fold_left assign].
    rewrite Z.max_l by lia.
    apply set_index_twice. lia.
  - intros E. apply Z.leb_le in E. rewrite Hnext.
    rewrite Z.min_r by lia.
    replace last with (activeSlideIndex (store ss)) by lia. apply set_index_same.
  - intros E. apply Z.eqb_neq in E. rewrite Hprev.
    rewrite Z.max_l by lia. split; [reflexivity|].
    unfold Ui.goNext, get. rewrite Hdeck. cbn [activeSlideIndex store setActiveSlide set merge fold_left assign].
    fold last. rewrite Z.min_l by lia.
    apply set_index_twice. lia.
  - intros E. apply Z.eqb_eq in E. rewrite Hprev.
    rewrite Z.max_r by lia.
    replace 0 with (activeSlideIndex (store ss)) by lia. apply set_index_same.
Qed.

(** X13.  What is on the stage.  With the cursor on a slide the stage is
    never empty: it shows the rendered preview or the card of that very
    slide.  A preview is only shown for an index that [previewUrls]
    covers and a non-empty [presentationId], and its address is built
    from that id and the index, not taken from [previewUrls]; a slide
    that the previews do not reach falls back to its card.  With the
    cursor below 0 the stage of a deck is blank. *)
Theorem stage_of_cursor (ss : Session) (p : Schema.Presentation.t) :
  presentation (store ss) = Some p ->
  (in_range (store ss) ->
   (exists src, Preview.stage env ss = Preview.Image src) \/
   (exists slide,
      Preview.at_ (Schema.Presentation.slides p) (activeSlideIndex (store ss))
      = Some slide /\
      Preview.stage env ss = Preview.Card slide (activeSlideIndex (store ss)))) /\
  (forall src,
     Preview.stage env ss = Preview.Image src ->
     exists id,
       presentationId (store ss) = Some id /\ truthy id = true /\
       src = Api.value (Api.getPreviewUrl env id (activeSlideIndex (store ss))) /\
       0 <= activeSlideIndex (store ss)
         <= Z.of_nat (List.length (previewUrls (store ss))) - 1) /\
  (in_range (store ss) ->
   Z.of_nat (List.length (previewUrls (store ss))) <= activeSlideIndex (store ss) ->
   exists slide, Preview.stage env ss = Preview.Card slide (activeSlideIndex (store ss))) /\
  (activeSlideIndex (store ss) < 0 -> Preview.stage env ss = Preview.Blank).
Proof.
  intros Hp. unfold Preview.stage, get. rewrite Hp.
  split; [|split; [|split]].
  - intros Hin. destruct (in_range_has_deck _ Hin) as (p' & Hp' & Hb).
    rewrite Hp in Hp'; inversion Hp'; subst p'.
    destruct (at_Some _ _ Hb) as [slide Hs]. rewrite Hs.
    destruct (Preview.hasPreview (store ss)) eqn:Hh.
    + unfold Preview.hasPreview in Hh.
      apply andb_prop in Hh as [Hh _]. apply andb_prop in Hh as [_ Hid].
      destruct (presentationId (store ss)); [left; eauto | discriminate].
    + right; eauto.
  - intros src.
    destruct (Preview.hasPreview (store ss)) eqn:Hh.
    + unfold Preview.hasPreview in Hh.
      apply andb_prop in Hh as [Hh Hat]. apply andb_prop in Hh as [_ Hid].
      destruct (presentationId (store ss)) as [id|]; [|discriminate].
      intros H; inversion H; subst. exists id. repeat split; auto;
        destruct (Preview.at_ (previewUrls (store ss)) (activeSlideIndex (store ss)))
          as [u|] eqn:Hu; try discriminate; apply at_bounds in Hu; lia.
    + destruct (Preview.at_ _ _); discriminate.
  - intros Hin Hshort. destruct (in_range_has_deck _ Hin) as (p' & Hp' & Hb).
    rewrite Hp in Hp'; inversion Hp'; subst p'.
    destruct (at_Some _ _ Hb) as [slide Hs]. rewrite Hs.
    assert (Hno : Preview.hasPreview (store ss) = false).
    { unfold Preview.hasPreview.
      destruct (Preview.at_ (previewUrls (store ss)) (activeSlideIndex (store ss)))
        as [u|] eqn:Hu.
      - apply at_bounds in Hu. lia.
      - simpl. now rewrite andb_false_r. }
    rewrite Hno. eauto.
  - intros Hneg.
    assert (Hat : forall A (xs : list A),
               Preview.at_ xs (activeSlideIndex (store ss)) = None).
    { intros A xs. unfold Preview.at_.
      destruct (activeSlideIndex (store ss) <? 0) eqn:E; [reflexivity|].
      apply Z.ltb_ge in E. lia. }
    unfold Preview.hasPreview. rewrite !Hat. simpl. now rewrite andb_false_r.
Qed.

(** *** The slide card and the thumbnails *)

Lemma texts_In (elements : list Schema.SlideElement) (e : Schema.TextBox.t) :
  In e (Preview.texts elements) <-> In (Schema.text e) elements.
Proof.
  induction elements as [|[t|i|c] rest IH]; simpl; [tauto| | |].
  - rewrite IH. split; intros [H|H]; auto; left; congruence.
  - rewrite IH. split; [auto | intros [H|H]; [discriminate | auto]].
  - rewrite IH. split; [auto | intros [H|H]; [discriminate | auto]].
Qed.

Lemma firstn_incl {A} (n : nat) (l : list A) (x : A) :
  In x (firstn n l) -> In x l.
Proof.
  intros H. rewrite <- (firstn_skipn n l). apply in_or_app; now left.
Qed.

(** [find] returns the first element that passes, and only that. *)
Lemma find_first {A} (f : A -> bool) (l : list A) (t : A) :
  find f l = Some t <->
  exists before after,
    l = (before ++ t :: after)%list /\ f t = true /\
    Forall (fun x => f x = false) before.
Proof.
  induction l as [|a l IH]; simpl.
  - split; [discriminate|]. intros (before & after & H & _).
    now destruct before.
  - destruct (f a) eqn:Ha.
    + split.
      * intros H; inversion H; subst. exists [], l. repeat split; auto.
      * intros ([|b before] & after & H & Ht & Hb); simpl in H; inversion H; subst.
        -- reflexivity.
        -- inversion Hb; subst. congruence.
    + rewrite IH. split.
      * intros (before & after & -> & Ht & Hb).
        exists (a :: before), after. repeat split; auto.
      * intros ([|b before] & after & H & Ht & Hb); simpl in H; inversion H; subst.
        -- congruence.
        -- inversion Hb; subst. exists before, after. repeat split; auto.
Qed.

Lemma filter_split_length {A} (f : A -> bool) (l : list A) :
  List.length l
  = (List.length (filter (fun x => negb (f x)) l) + List.length (filter f l))%nat.
Proof.
  induction l as [|a l IH]; simpl; [reflexivity|].
  destruct (f a); simpl; lia.
Qed.

(** X14.  The card of a slide shows at most four body paragraphs and
    counts the rest: the number after "+" is positive and, added to the
    paragraphs shown, gives the number of text boxes that are not titles.
    Only text boxes of the slide are shown, never an image or a chart.
    Of the text boxes flagged as title the first is the heading (the
    one with no flagged text box before it) and the others are not shown
    at all: the text boxes split into the bodies and the ones flagged as
    title, and the heading is one box. *)
Theorem card_accounts_for_text (slide : Schema.Slide.t) :
  List.length (Preview.shownBodies slide)
  = Nat.min 4 (List.length (Preview.bodyEls slide)) /\
  (List.length (Preview.shownBodies slide)
   + match Preview.moreCount slide with Some n => n | None => 0 end
   = List.length (Preview.bodyEls slide))%nat /\
  (forall n, Preview.moreCount slide = Some n -> (0 < n)%nat) /\
  (forall el,
     In el (Preview.shownBodies slide) ->
     Schema.TextBox.is_title el = false /\
     In (Schema.text el) (Schema.Slide.elements slide)) /\
  (forall t,
     Preview.titleEl slide = Some t ->
     Schema.TextBox.is_title t = true /\
     In (Schema.text t) (Schema.Slide.elements slide)) /\
  (forall t,
     Preview.titleEl slide = Some t <->
     exists before after,
       Preview.textElements slide = (before ++ t :: after)%list /\
       Schema.TextBox.is_title t = true /\
       Forall (fun el => Schema.TextBox.is_title el = false) before) /\
  (Preview.titleEl slide = None <->
   filter Schema.TextBox.is_title (Preview.textElements slide) = []) /\
  List.length (Preview.textElements slide)
  = (List.length (Preview.bodyEls slide)
     + List.length (filter Schema.TextBox.is_title (Preview.textElements slide)))%nat.
Proof.
  unfold Preview.shownBodies, Preview.moreCount.
  set (bodies := Preview.bodyEls slide).
  split; [apply length_firstn|].
  split.
  { rewrite length_firstn.
    destruct (4 <? List.length bodies)%nat eqn:E;
      [apply Nat.ltb_lt in E | apply Nat.ltb_ge in E]; lia. }
  split.
  { intros n. destruct (4 <? List.length bodies)%nat eqn:E; [|discriminate].
    apply Nat.ltb_lt in E. intros H; inversion H; lia. }
  split.
  { intros el Hin. apply firstn_incl in Hin. unfold bodies, Preview.bodyEls in Hin.
    apply filter_In in Hin as [Hin Hb].
    split; [now apply negb_true_iff in Hb | now apply texts_In]. }
  split.
  { intros t Ht. unfold Preview.titleEl in Ht. apply find_some in Ht as [Hin Ht].
    split; [exact Ht | now apply texts_In]. }
  split.
  { intros t. apply find_first. }
  split.
  { unfold Preview.titleEl.
    induction (Preview.textElements slide) as [|a l IH]; simpl; [tauto|].
    destruct (Schema.TextBox.is_title a); [split; discriminate | exact IH]. }
  apply filter_split_length.
Qed.

(** X15.  The thumbnail and the card agree on the title of a slide: the
    element the thumbnail finds with its own search is the text box the
    card takes as heading, and neither finds one when the other does
    not. *)
Theorem thumbnail_and_card_agree (slide : Schema.Slide.t) :
  Preview.thumbTitle slide = option_map Schema.text (Preview.titleEl slide).
Proof.
  unfold Preview.thumbTitle, Preview.titleEl, Preview.textElements.
  induction (Schema.Slide.elements slide) as [|[t|i|c] rest IH]; simpl; auto.
  destruct (Schema.TextBox.is_title t); simpl; auto.
Qed.

(** *** Sessions driven through the panels *)

Lemma handleSubmit_cases (numSlides : option Z) (ss : Session) :
  Ui.handleSubmit env numSlides ss = ss \/
  (isGenerating (store ss) = false /\
   truthy (trim (prompt (store ss))) = true /\
   Ui.handleSubmit env numSlides ss
   = generate env (trim (prompt (store ss))) numSlides ss).
Proof.
  unfold Ui.handleSubmit, get.
  destruct (truthy (trim (prompt (store ss)))), (isGenerating (store ss));
    simpl; auto.
Qed.

Lemma handleRefine_cases (refineInput : string) (ss : Session) :
  Ui.handleRefine env refineInput ss = ss \/
  (isRefining (store ss) = false /\
   truthy (trim refineInput) = true /\
   Ui.handleRefine env refineInput ss = refine env (trim refineInput) ss).
Proof.
  unfold Ui.handleRefine, get.
  destruct (truthy (trim refineInput)), (isRefining (store ss)); simpl; auto.
Qed.

Lemma not_busy (s : AppState) :
  Panel.isBusy s = false -> isGenerating s = false /\ isRefining s = false.
Proof.
  unfold Panel.isBusy. now intros H%orb_false_elim.
Qed.

(** A gesture is at most one action of the store, a polite one. *)
Lemma ui_step_polite (g : Panel.Gesture) (ss ss' : Session) :
  Invariants.cursor_valid (store ss) ->
  Panel.ui_step env g ss = Some ss' ->
  ss' = ss \/
  exists e, Invariants.polite e (store ss) /\ step env e ss = Some ss'.
Proof.
  intros [Hlo Hhi]. unfold Panel.ui_step, get.
  destruct (Panel.offered g (store ss)) eqn:Hoff; [|discriminate].
  destruct g; cbn [Panel.handle Panel.offered] in *.
  - intros H. right. exists (SetPrompt text). split; [exact I | exact H].
  - destruct (nth_error Panel.EXAMPLE_PROMPTS i) as [ex|]; [|discriminate].
    intros H. right. exists (SetPrompt ex). split; [exact I | exact H].
  - intros H. right. exists (SetGenerationMode mode). split; [exact I | exact H].
  - destruct file as [f|]; intros H; inversion H; subst; [right | left; reflexivity].
    exists (SetTemplateFile (Some f)). split; [exact I | reflexivity].
  - unfold Panel.handleFileDrop. destruct file as [f|];
      [destruct (Panel.endsWith (Schema.File.name f) ".pptx")|];
      intros H; inversion H; subst; [right | left; reflexivity | left; reflexivity].
    exists (SetTemplateFile (Some f)). split; [exact I | reflexivity].
  - intros H. right. exists (SetTemplateFile None). split; [exact I | exact H].
  - apply andb_prop in Hoff as [_ Hidle]. apply negb_true_iff, not_busy in Hidle.
    destruct Hidle as [Hg Hr].
    intros H; inversion H; subst; clear H.
    destruct (handleSubmit_cases numSlides ss) as [-> | (_ & Ht & ->)];
      [left; reflexivity | right].
    exists (Generate (trim (prompt (store ss))) numSlides).
    split; [simpl; auto | reflexivity].
  - apply andb_prop in Hoff as [_ Hidle]. apply negb_true_iff, not_busy in Hidle.
    destruct Hidle as [Hg Hr].
    intros H; inversion H; subst; clear H.
    destruct (handleRefine_cases refineInput ss) as [-> | (_ & Ht & ->)];
      [left; reflexivity | right].
    exists (Refine (trim refineInput)).
    split; [simpl; auto | reflexivity].
  - intros H. right. exists DoReset. split; [exact I | exact H].
  - intros H; inversion H; subst. left; reflexivity.
  - apply andb_prop in Hoff as [_ Hnext]. apply negb_true_iff in Hnext.
    unfold Preview.nextDisabled in Hnext. unfold Ui.goNext, get.
    unfold slideCount in Hhi.
    destruct (presentation (store ss)) as [p|] eqn:Hp; [|discriminate].
    apply Z.leb_gt in Hnext.
    intros H. right.
    exists (SetActiveSlide
              (Z.min (activeSlideIndex (store ss) + 1)
                     (Z.of_nat (List.length (Schema.Presentation.slides p)) - 1))).
    split; [|exact H]. simpl. unfold slideCount. rewrite Hp. lia.
  - apply andb_prop in Hoff as [_ Hprev]. apply negb_true_iff in Hprev.
    unfold Preview.prevDisabled in Hprev. apply Z.eqb_neq in Hprev.
    unfold Ui.goPrev, get. unfold slideCount in Hhi.
    destruct (presentation (store ss)) as [p|] eqn:Hp;
      [|intros H; inversion H; subst; left; reflexivity].
    intros H. right.
    exists (SetActiveSlide (Z.max (activeSlideIndex (store ss) - 1) 0)).
    split; [|exact H]. simpl. unfold slideCount. rewrite Hp. lia.
  - unfold Ui.thumbClick, get.
    destruct (presentation (store ss)) as [p|] eqn:Hp;
      [|intros H; inversion H; subst; left; reflexivity].
    destruct (idx <? List.length (Schema.Presentation.slides p))%nat eqn:E;
      [|intros H; inversion H; subst; left; reflexivity].
    apply Nat.ltb_lt in E. intros H. right.
    exists (SetActiveSlide (Z.of_nat idx)).
    split; [|exact H]. simpl. unfold slideCount. rewrite Hp. lia.
  - intros H. right. exists (GenerateSettles n settled). split; [exact I | exact H].
  - intros H. right. exists (RefineSettles n settled). split; [exact I | exact H].
Qed.

Lemma Forall_nth_error {A} (P : A -> Prop) (l : list A) (n : nat) (k : A) :
  Forall P l -> nth_error l n = Some k -> P k.
Proof.
  intros HF Hn. apply nth_error_In in Hn.
  rewrite Forall_forall in HF. auto.
Qed.

Lemma cursor_step (e : Event) (ss ss' : Session) :
  Invariants.polite e (store ss) -> Invariants.cursor_valid (store ss) ->
  step env e ss = Some ss' -> Invariants.cursor_valid (store ss').
Proof.
  unfold Invariants.cursor_valid, slideCount. intros Hp I H.
  step_cases H; unfold await; cbn; try exact I; try (split; [lia | now right]).
  exact Hp.
Qed.

Lemma exclusive_step (e : Event) (ss ss' : Session) :
  Invariants.polite e (store ss) -> Invariants.exclusive (store ss) ->
  step env e ss = Some ss' -> Invariants.exclusive (store ss').
Proof.
  unfold Invariants.exclusive. intros Hp I H.
  step_cases H; unfold await; cbn; try exact I; try reflexivity;
    try apply andb_false_r.
  - destruct Hp as (_ & -> & _). reflexivity.
  - destruct Hp as (-> & _ & _). reflexivity.
Qed.

Lemma told_step (e : Event) (ss ss' : Session) :
  Invariants.polite e (store ss) -> Invariants.prompts_told ss ->
  step env e ss = Some ss' -> Invariants.prompts_told ss'.
Proof.
  unfold Invariants.prompts_told, Invariants.told. intros Hp [Ih If] H.
  step_cases H; unfold await; cbn; try (split; [exact Ih | exact If]).
  - split; [exact Ih|]. apply Forall_app; split; [exact If|].
    constructor; [apply Hp | constructor].
  - split; [exact Ih|]. apply Forall_app; split; [exact If|].
    constructor; [split; [exact Ih | apply Hp] | constructor].
  - split; [constructor | exact If].
  - pose proof (Forall_nth_error _ _ _ _ If Hn) as Hk; simpl in Hk.
    split; [constructor; [exact Hk | constructor] | now apply Forall_remove_nth].
  - split; [exact Ih | now apply Forall_remove_nth].
  - pose proof (Forall_nth_error _ _ _ _ If Hn) as [Hh Hi].
    split; [|now apply Forall_remove_nth].
    apply Forall_app; split; [exact Hh | constructor; [exact Hi | constructor]].
  - split; [exact Ih | now apply Forall_remove_nth].
Qed.

Lemma ui_inv_run (gs : list Panel.Gesture) :
  forall ss ss',
    Invariants.ui_inv ss /\ reachable env ss ->
    Panel.ui_run env gs ss = Some ss' ->
    Invariants.ui_inv ss' /\ reachable env ss'.
Proof.
  induction gs as [|g gs IH]; simpl; intros ss ss' I H.
  - now inversion H; subst.
  - destruct (Panel.ui_step env g ss) as [mid|] eqn:E; [|discriminate].
    apply (IH mid ss'); [|exact H]. clear IH H.
    destruct I as [(Ic & Ie & It) [es Hes]].
    destruct (ui_step_polite g ss mid Ic E) as [-> | (e & Hp & Hstep)].
    + split; [split; [exact Ic | split; [exact Ie | exact It]] | exists es; exact Hes].
    + split.
      * split; [eapply cursor_step; eauto|].
        split; [eapply exclusive_step; eauto | eapply told_step; eauto].
      * exists (es ++ [e])%list. eapply run_app; [exact Hes|].
        simpl. now rewrite Hstep.
Qed.

Lemma ui_reachable_inv (ss : Session) :
  Panel.ui_reachable env ss -> Invariants.ui_inv ss /\ reachable env ss.
Proof.
  intros [gs H]. apply (ui_inv_run gs initial ss); [|exact H].
  split; [|exists []; reflexivity].
  split; [split; [simpl; lia | now right]|].
  split; [reflexivity | split; constructor].
Qed.

(** X16.  Through the panels the cursor cannot leave the deck: in every
    session reached by gestures and settlements the active slide index
    is the position of a slide whenever the deck has slides, and 0 when
    there is no deck or an empty one, so that the stage of a deck with
    slides is never blank. *)
Theorem ui_cursor_on_a_slide (ss : Session) :
  Panel.ui_reachable env ss ->
  (0 < slideCount (store ss) -> in_range (store ss)) /\
  (slideCount (store ss) = 0 -> activeSlideIndex (store ss) = 0) /\
  (0 < slideCount (store ss) -> Preview.stage env ss <> Preview.Blank).
Proof.
  intros Hreach. destruct (ui_reachable_inv ss Hreach) as [([Hlo Hhi] & _ & _) _].
  assert (Hin : 0 < slideCount (store ss) -> in_range (store ss))
    by (intros Hpos; unfold in_range; lia).
  split; [exact Hin|]. split; [lia|].
  intros Hpos. specialize (Hin Hpos).
  destruct (in_range_has_deck _ Hin) as (p & Hp & Hb).
  destruct (at_Some _ _ Hb) as [slide Hs].
  unfold Preview.stage, get. rewrite Hp, Hs.
  destruct (Preview.hasPreview (store ss)) eqn:Hh; [|discriminate].
  unfold Preview.hasPreview in Hh.
  apply andb_prop in Hh as [Hh _]. apply andb_prop in Hh as [_ Hid].
  destruct (presentationId (store ss)); [discriminate | discriminate Hid].
Qed.

(** X17.  Through the panels the two busy flags are never up together,
    although calls can overlap there (a call is still in flight after
    Start Over): the store is always in one of Idle, Generating, Ready
    and Refining. *)
Theorem ui_flags_exclusive (ss : Session) :
  Panel.ui_reachable env ss ->
  (isGenerating (store ss) && isRefining (store ss))%bool = false /\
  exists ph, phase (store ss) = Some ph.
Proof.
  intros Hreach. destruct (ui_reachable_inv ss Hreach) as [(_ & He & _) _].
  unfold Invariants.exclusive in He. split; [exact He|].
  unfold phase.
  destruct (isGenerating (store ss)), (isRefining (store ss)),
    (presentation (store ss)); try discriminate; eauto.
Qed.

(** X18.  Through the panels no blank prompt gets anywhere: every entry
    of the prompt history, and every prompt or instruction of a call in
    flight, is non-empty (it was trimmed and found non-empty before it
    was sent). *)
Theorem ui_prompts_never_blank (ss : Session) :
  Panel.ui_reachable env ss ->
  Forall (fun p => truthy p = true) (promptHistory (store ss)) /\
  (forall prompt, In (GenerateCall prompt) (inflight ss) -> truthy prompt = true) /\
  (forall id history instruction,
     In (RefineCall id history instruction) (inflight ss) ->
     truthy instruction = true /\ Forall (fun p => truthy p = true) history).
Proof.
  intros Hreach. destruct (ui_reachable_inv ss Hreach) as [(_ & _ & [Ih If]) _].
  split; [exact Ih|]. rewrite Forall_forall in If. split.
  - intros prompt Hin. exact (If _ Hin).
  - intros id history instruction Hin. destruct (If _ Hin) as [Hh Hi]. auto.
Qed.

(** *** The form of the chat panel *)

(** X19.  The prompt, the generation mode and the template file belong
    to the user: a step of the store changes the prompt only when it is
    [setPrompt] or [reset], the mode only when it is [setGenerationMode]
    or [reset] and the file only when it is [setTemplateFile] or
    [reset].  Dispatching a call and its success or failure leave all
    three as they are. *)
Theorem form_fields_belong_to_user (e : Event) (ss ss' : Session) :
  step env e ss = Some ss' ->
  match e with
  | SetPrompt _ | DoReset => True
  | _ => prompt (store ss') = prompt (store ss)
  end /\
  match e with
  | SetGenerationMode _ | DoReset => True
  | _ => generationMode (store ss') = generationMode (store ss)
  end /\
  match e with
  | SetTemplateFile _ | DoReset => True
  | _ => templateFile (store ss') = templateFile (store ss)
  end.
Proof.
  intros H. step_cases H; unfold await; cbn; auto.
Qed.

Lemma substring_all (s : string) : substring 0 (String.length s) s = s.
Proof.
  induction s as [|c s IH]; simpl; [reflexivity | now rewrite IH].
Qed.

Lemma substring_skip (pre s : string) (m : nat) :
  substring (String.length pre) m (pre ++ s) = substring 0 m s.
Proof.
  induction pre as [|c pre IH]; simpl; [reflexivity | exact IH].
Qed.

Lemma length_append (a b : string) :
  String.length (a ++ b) = (String.length a + String.length b)%nat.
Proof.
  induction a as [|c a IH]; simpl; [reflexivity | now rewrite IH].
Qed.

Lemma substring_split (k : nat) :
  forall s, (k <= String.length s)%nat ->
    s = substring 0 k s ++ substring k (String.length s - k) s.
Proof.
  induction k as [|k IH]; intros s Hk.
  - rewrite Nat.sub_0_r, substring_all. now destruct s.
  - destruct s as [|c s]; simpl in *; [lia|].
    f_equal. apply IH. lia.
Qed.

Lemma endsWith_spec (s suffix : string) :
  Panel.endsWith s suffix = true <-> exists stem, s = stem ++ suffix.
Proof.
  unfold Panel.endsWith. split.
  - remember (String.length suffix) as m eqn:Hm.
    destruct (m <=? String.length s)%nat eqn:E; [|discriminate].
    apply Nat.leb_le in E. intros H%String.eqb_eq.
    exists (substring 0 (String.length s - m) s). rewrite <- H.
    assert (Hs := substring_split (String.length s - m) s).
    replace (String.length s - (String.length s - m))%nat with m in Hs by lia.
    apply Hs. lia.
  - intros [stem ->]. rewrite length_append.
    replace (String.length suffix <=? String.length stem + String.length suffix)%nat
      with true by (symmetry; apply Nat.leb_le; lia).
    replace (String.length stem + String.length suffix - String.length suffix)%nat
      with (String.length stem) by lia.
    rewrite substring_skip, substring_all. apply String.eqb_refl.
Qed.

(** X20.  A file dropped on the upload zone is taken exactly when its
    name is something followed by [.pptx], in these very letters; any
    other drop, or a drop without a file, leaves the session as it is.
    The file input applies no such test: the file chosen there is taken
    whatever its name. *)
Theorem drop_takes_pptx_only (f : Schema.File.t) (ss : Session) :
  ((exists stem, Schema.File.name f = stem ++ ".pptx") ->
   templateFile (store (Panel.handleFileDrop (Some f) ss)) = Some f) /\
  (~ (exists stem, Schema.File.name f = stem ++ ".pptx") ->
   Panel.handleFileDrop (Some f) ss = ss) /\
  Panel.handleFileDrop None ss = ss /\
  templateFile (store (Panel.handleFileChange (Some f) ss)) = Some f.
Proof.
  unfold Panel.handleFileDrop, Panel.handleFileChange.
  split; [|split; [|split; reflexivity]].
  - intros H. apply endsWith_spec in H. now rewrite H.
  - intros H.
    destruct (Panel.endsWith (Schema.File.name f) ".pptx") eqn:E; [|reflexivity].
    apply endsWith_spec in E. contradiction.
Qed.

(** *** The two busy flags *)

Lemma exclusive_uncrossed_step (e : Event) (ss ss' : Session) :
  Invariants.exclusive (store ss) ->
  Crossing.uncrossed_step env e ss = Some ss' ->
  Invariants.exclusive (store ss').
Proof.
  unfold Invariants.exclusive, Crossing.uncrossed_step. intros I H.
  destruct (Crossing.crosses e (store ss)) eqn:Hc; [discriminate|].
  step_cases H; unfold await; cbn in *; try exact I; try reflexivity;
    try apply andb_false_r.
  - exact Hc.
  - rewrite Hid in Hc; simpl in Hc. rewrite Hset, andb_true_r in Hc.
    rewrite Hc. reflexivity.
Qed.

Lemma uncrossed_run_exclusive (es : list Event) :
  forall ss ss',
    Invariants.exclusive (store ss) ->
    Crossing.uncrossed_run env es ss = Some ss' ->
    Invariants.exclusive (store ss').
Proof.
  induction es as [|e es IH]; simpl; intros ss ss' I H.
  - now inversion H; subst.
  - destruct (Crossing.uncrossed_step env e ss) as [mid|] eqn:E; [|discriminate].
    eapply IH; [|exact H]. eapply exclusive_uncrossed_step; eauto.
Qed.

Lemma uncrossed_run_app (es es' : list Event) (ss mid ss' : Session) :
  Crossing.uncrossed_run env es ss = Some mid ->
  Crossing.uncrossed_run env es' mid = Some ss' ->
  Crossing.uncrossed_run env (es ++ es') ss = Some ss'.
Proof.
  revert ss; induction es as [|e es IH]; simpl; intros ss H H'.
  - now inversion H; subst.
  - destruct (Crossing.uncrossed_step env e ss) as [next|]; [|discriminate].
    now apply IH.
Qed.

Lemma polite_not_crossing (e : Event) (s : AppState) :
  Invariants.polite e s -> Crossing.crosses e s = false.
Proof.
  destruct e; simpl; auto.
  - now intros (_ & -> & _).
  - now intros (-> & _ & _).
Qed.

(** What the panels offer never crosses. *)
Lemma ui_run_uncrossed (gs : list Panel.Gesture) :
  forall ss ss',
    Invariants.ui_inv ss /\ Crossing.uncrossed_reachable env ss ->
    Panel.ui_run env gs ss = Some ss' ->
    Invariants.ui_inv ss' /\ Crossing.uncrossed_reachable env ss'.
Proof.
  induction gs as [|g gs IH]; simpl; intros ss ss' I H.
  - now inversion H; subst.
  - destruct (Panel.ui_step env g ss) as [mid|] eqn:E; [|discriminate].
    apply (IH mid ss'); [|exact H]. clear IH H.
    destruct I as [(Ic & Ie & It) [es Hes]].
    destruct (ui_step_polite g ss mid Ic E) as [-> | (e & Hp & Hstep)].
    + split; [split; [exact Ic | split; [exact Ie | exact It]] | exists es; exact Hes].
    + split.
      * split; [eapply cursor_step; eauto|].
        split; [eapply exclusive_step; eauto | eapply told_step; eauto].
      * exists (es ++ [e])%list. eapply uncrossed_run_app; [exact Hes|].
        simpl. unfold Crossing.uncrossed_step.
        rewrite (polite_not_crossing _ _ Hp). now rewrite Hstep.
Qed.

(** Serialized use never crosses. *)
Lemma serial_run_uncrossed (es : list Event) :
  forall ss ss',
    serial_inv ss -> serial_run env es ss = Some ss' ->
    Crossing.uncrossed_run env es ss = Some ss'.
Proof.
  induction es as [|e es IH]; simpl; intros ss ss' I H; [exact H|].
  destruct (serial_step env e ss) as [mid|] eqn:E; [|discriminate].
  pose proof (serial_step_inv env e ss mid I E) as Imid.
  assert (Hc : Crossing.crosses e (store ss) = false).
  { unfold serial_step in E. unfold serial_inv in I. unfold quiet in E.
    destruct e; simpl; auto; simpl in E;
      destruct (inflight ss) as [|k fl]; try discriminate;
      destruct I as [Hg Hr]; rewrite ?Hg, ?Hr; reflexivity. }
  unfold Crossing.uncrossed_step. rewrite Hc.
  unfold serial_step in E.
  destruct (dispatches e && negb (quiet ss))%bool; [discriminate|].
  rewrite E. now apply IH.
Qed.

(** C6, amended.  The two busy flags are up together exactly after a
    crossing: [generate] invoked while [isRefining] is up, or [refine],
    with a [presentationId] to refine, invoked while [isGenerating] is
    up; such a step leaves both flags up.  In every state reached from
    the initial one by store actions and settlements without a crossing,
    interleaved calls in flight included, [isGenerating] and [isRefining]
    are never both true and the store is in exactly one of Idle,
    Generating, Ready and Refining.  Every session reached through what
    the panels offer, and every serialized run, is such a state. *)
Theorem uncrossed_flags_exclusive :
  (forall ss,
     Crossing.uncrossed_reachable env ss ->
     (isGenerating (store ss) && isRefining (store ss))%bool = false /\
     exists ph, phase (store ss) = Some ph) /\
  (forall e ss ss',
     Crossing.crosses e (store ss) = true ->
     step env e ss = Some ss' ->
     isGenerating (store ss') = true /\ isRefining (store ss') = true) /\
  (forall ss, Panel.ui_reachable env ss -> Crossing.uncrossed_reachable env ss) /\
  (forall ss, serially_reachable env ss -> Crossing.uncrossed_reachable env ss).
Proof.
  split; [|split; [|split]].
  - intros ss [es Hrun].
    assert (He : Invariants.exclusive (store ss))
      by (eapply uncrossed_run_exclusive; [|exact Hrun]; reflexivity).
    unfold Invariants.exclusive in He. split; [exact He|].
    unfold phase.
    destruct (isGenerating (store ss)), (isRefining (store ss)),
      (presentation (store ss)); try discriminate; eauto.
  - intros e ss ss' Hc H.
    step_cases H; unfold await; cbn in *; try discriminate Hc.
    + split; [reflexivity | exact Hc].
    + rewrite Hno, andb_false_r in Hc. discriminate Hc.
    + apply andb_prop in Hc as [Hg _]. split; [exact Hg | reflexivity].
  - intros ss [gs Hrun].
    apply (ui_run_uncrossed gs initial ss); [|exact Hrun].
    split; [|exists []; reflexivity].
    split; [split; [simpl; lia | now right]|].
    split; [reflexivity | split; constructor].
  - intros ss [es Hrun]. exists es.
    apply serial_run_uncrossed; [|exact Hrun].
    unfold serial_inv; simpl; auto.
Qed.

End Coverage.

(* ------------------------------------------------------------------ *)
(** ** The further properties on the sample sessions *)

Lemma reachable_ready_p1 : reachable Samples.local Samples.ready_p1.
Proof.
  exists [Generate Samples.pitch None;
          GenerateSettles 0 (Resolved Samples.generated_p1)].
  vm_compute. reflexivity.
Qed.

Lemma reachable_refining : reachable Samples.local Samples.refining.
Proof.
  exists [Generate Samples.pitch None;
          GenerateSettles 0 (Resolved Samples.generated_p1);
          Refine "Add pricing"].
  vm_compute. reflexivity.
Qed.

Lemma ui_reachable_started_over :
  Panel.ui_reachable Samples.local (Cases.ui_after Cases.started_over).
Proof.
  exists Cases.started_over. vm_compute. reflexivity.
Qed.

Lemma in_range_ready_p1 : in_range (store Samples.ready_p1).
Proof.
  assert (Hat : activeSlideIndex (store Samples.ready_p1) = 0) by evaluate.
  assert (Hn : slideCount (store Samples.ready_p1) = 3) by evaluate.
  unfold in_range. rewrite Hat, Hn. lia.
Qed.

Lemma in_range_ready_p2_last : in_range (store Cases.ready_p2_last).
Proof.
  assert (Hat : activeSlideIndex (store Cases.ready_p2_last) = 2) by evaluate.
  assert (Hn : slideCount (store Cases.ready_p2_last) = 3) by evaluate.
  unfold in_range. rewrite Hat, Hn. lia.
Qed.

Lemma generate_sends_form_witness :
  generationMode (store Cases.file_left_behind) = Schema.from_scratch /\
  templateFile (store Cases.file_left_behind) = Some Cases.brand /\
  exists form,
    map Api.body (network (generate Samples.local Samples.pitch (Some 3)
                             Cases.file_left_behind))
    = [Some (Api.Multipart form)] /\
    In ("file", Api.FormFile Cases.brand) form.
Proof.
  split; [reflexivity|]. split; [reflexivity|].
  destruct (generate_sends_form Samples.local Samples.pitch (Some 3)
              Cases.file_left_behind) as (form & Hnet & _ & Hfile & _).
  exists form. split; [rewrite Hnet; reflexivity|].
  apply Hfile. reflexivity.
Defined.

Lemma refine_sends_json_witness :
  presentationId (store Samples.ready_p1) = Some "p1" /\
  truthy "p1" = true /\
  map Api.url (network (refine Samples.local "Add pricing" Samples.ready_p1))
  = ["http://localhost:8000/api/generate"; "http://localhost:8000/api/refine/p1"].
Proof.
  split; [reflexivity|]. split; [reflexivity|].
  destruct (refine_sends_json Samples.local "Add pricing" "p1" Samples.ready_p1
              eq_refl eq_refl) as [Hnet _].
  rewrite Hnet. evaluate.
Defined.

Lemma transport_outcomes_witness :
  Api.after_fetch Cases.overloaded = Rejected (ApiError 429 "LLM quota exceeded").
Proof.
  destruct (transport_outcomes Schema.GenerateResponse.t Cases.overloaded)
    as (_ & _ & Hfail).
  exact (Hfail _ eq_refl eq_refl).
Defined.

Lemma transport_failure_shown_witness :
  nth_error (inflight Samples.generating) 0 = Some (GenerateCall Samples.pitch) /\
  Api.after_fetch Cases.overloaded = Rejected (ApiError 429 "LLM quota exceeded") /\
  exists ss',
    step Samples.local (GenerateSettles 0 (Api.after_fetch Cases.overloaded))
         Samples.generating = Some ss' /\
    error (store ss') = Some "LLM quota exceeded".
Proof.
  split; [reflexivity|]. split; [reflexivity|].
  destruct (transport_failure_shown Samples.local Samples.generating 0 Samples.pitch
              Cases.overloaded (ApiError 429 "LLM quota exceeded") eq_refl eq_refl)
    as (ss' & Hstep & _ & _ & Herr & _).
  exists ss'. split; [exact Hstep | exact Herr].
Defined.

Lemma busy_flag_has_call_in_flight_witness :
  reachable Samples.local Samples.refining /\
  isRefining (store Samples.refining) = true /\
  exists id history instruction,
    In (RefineCall id history instruction) (inflight Samples.refining).
Proof.
  split; [exact reachable_refining|]. split; [reflexivity|].
  destruct (busy_flag_has_call_in_flight Samples.local Samples.refining
              reachable_refining) as (_ & Hr & _).
  apply Hr. reflexivity.
Defined.

Lemma deck_link_history_together_witness :
  reachable Samples.local Samples.ready_p1 /\
  (presentation (store Samples.ready_p1) = None
   <-> promptHistory (store Samples.ready_p1) = []).
Proof.
  split; [exact reachable_ready_p1|].
  destruct (deck_link_history_together Samples.local Samples.ready_p1
              reachable_ready_p1) as (_ & Hh & _).
  exact Hh.
Defined.

Lemma download_opens_iff_deck_witness :
  reachable Samples.local Samples.ready_p1 /\
  Download.downloadPptx Samples.ready_p1
  = Some ("http://localhost:8000/api/download/p1", "_blank") /\
  (Download.downloadPptx Samples.ready_p1 = None
   <-> presentation (store Samples.ready_p1) = None).
Proof.
  split; [exact reachable_ready_p1|]. split; [reflexivity|].
  destruct (download_opens_iff_deck Samples.local Samples.ready_p1
              reachable_ready_p1) as [Hiff _].
  exact Hiff.
Defined.

Lemma only_dispatch_sends_witness :
  step Samples.local (Refine "Add pricing") Samples.ready_p1 = Some Samples.refining /\
  (network Samples.refining = network Samples.ready_p1 \/
   (dispatches (Refine "Add pricing") = true /\
    exists f, network Samples.refining = (network Samples.ready_p1 ++ [f])%list)).
Proof.
  assert (Hstep : step Samples.local (Refine "Add pricing") Samples.ready_p1
                  = Some Samples.refining) by evaluate.
  split; [exact Hstep|].
  exact (only_dispatch_sends Samples.local _ _ _ Hstep).
Defined.

Lemma requests_are_store_posts_witness :
  reachable Samples.local Samples.refining /\
  (List.length (inflight Samples.refining) <= List.length (network Samples.refining))%nat.
Proof.
  split; [exact reachable_refining|].
  destruct (requests_are_store_posts Samples.local Samples.refining
              reachable_refining) as [_ Hlen].
  exact Hlen.
Defined.

Lemma reset_does_not_cancel_witness :
  nth_error (inflight Samples.refining) 0
  = Some (RefineCall "p1" [Samples.pitch] "Add pricing") /\
  exists ss',
    run Samples.local [DoReset; RefineSettles 0 (Resolved Samples.refined_p1)]
        Samples.refining = Some ss' /\
    presentation (store ss') = Some Samples.deck4 /\
    presentationId (store ss') = None /\
    promptHistory (store ss') = [Samples.pitch; "Add pricing"] /\
    refine Samples.local "Make it blue" ss' = ss'.
Proof.
  split; [reflexivity|].
  destruct (reset_does_not_cancel Samples.local Samples.refining 0) as (_ & _ & Hrefine).
  destruct (Hrefine "p1" [Samples.pitch] "Add pricing" Samples.refined_p1 eq_refl)
    as (ss' & Hrun & Hp & Hid & Hh & Hnoop).
  exists ss'. split; [exact Hrun|]. split; [exact Hp|]. split; [exact Hid|].
  split; [exact Hh | apply Hnoop].
Defined.

Lemma reference_urls_distinct_witness :
  Api.value (Api.getDownloadUrl Samples.local "p1")
  = Api.value (Api.getDownloadUrl Samples.local "p1") /\
  Api.value (Api.getPreviewUrl Samples.local "p1" 1)
  <> Api.value (Api.getPreviewUrl Samples.local "p1" 2).
Proof.
  split; [reflexivity|].
  destruct (reference_urls_distinct Samples.local "p1" "p1" 1 2) as (_ & Hix & _).
  intros H. apply Hix in H. discriminate H.
Defined.

Lemma navigation_round_trip_witness :
  in_range (store Samples.ready_p1) /\
  Preview.nextDisabled (store Samples.ready_p1) = false /\
  activeSlideIndex (store (Ui.goNext Samples.ready_p1))
  = activeSlideIndex (store Samples.ready_p1) + 1 /\
  Ui.goPrev (Ui.goNext Samples.ready_p1) = Samples.ready_p1.
Proof.
  split; [exact in_range_ready_p1|]. split; [evaluate|].
  destruct (navigation_round_trip Samples.ready_p1 in_range_ready_p1)
    as (Hnext & _).
  apply Hnext. evaluate.
Defined.

Lemma stage_of_cursor_witness :
  presentation (store Cases.ready_p2_last) = Some Samples.deck3 /\
  in_range (store Cases.ready_p2_last) /\
  Z.of_nat (List.length (previewUrls (store Cases.ready_p2_last)))
  <= activeSlideIndex (store Cases.ready_p2_last) /\
  exists slide,
    Preview.stage Samples.local Cases.ready_p2_last
    = Preview.Card slide (activeSlideIndex (store Cases.ready_p2_last)).
Proof.
  assert (Hshort : Z.of_nat (List.length (previewUrls (store Cases.ready_p2_last)))
                   <= activeSlideIndex (store Cases.ready_p2_last)).
  { assert (Hat : activeSlideIndex (store Cases.ready_p2_last) = 2) by evaluate.
    assert (Hn : List.length (previewUrls (store Cases.ready_p2_last)) = 1%nat)
      by evaluate.
    rewrite Hat, Hn. lia. }
  split; [reflexivity|]. split; [exact in_range_ready_p2_last|].
  split; [exact Hshort|].
  destruct (stage_of_cursor Samples.local Cases.ready_p2_last Samples.deck3 eq_refl)
    as (_ & _ & Hcard & _).
  exact (Hcard in_range_ready_p2_last Hshort).
Defined.

Lemma card_accounts_for_text_witness :
  Preview.moreCount Cases.crowded = Some 2%nat /\
  (0 < 2)%nat /\
  List.length (Preview.textElements Cases.crowded) = 8%nat /\
  List.length (Preview.shownBodies Cases.crowded) = 4%nat /\
  List.length (filter Schema.TextBox.is_title (Preview.textElements Cases.crowded))
  = 2%nat /\
  Preview.titleEl Cases.crowded = Some Cases.roadmap.
Proof.
  destruct (card_accounts_for_text Cases.crowded)
    as (Hshown & _ & Hpos & _ & _ & Hfirst & _).
  split; [reflexivity|]. split; [exact (Hpos 2%nat eq_refl)|].
  split; [reflexivity|]. split; [exact Hshown|]. split; [reflexivity|].
  apply Hfirst.
  exists [], (tl (Preview.textElements Cases.crowded)).
  split; [reflexivity|]. split; [reflexivity | constructor].
Defined.

Lemma ui_cursor_on_a_slide_witness :
  Panel.ui_reachable Samples.local (Cases.ui_after Cases.browsing) /\
  slideCount (store (Cases.ui_after Cases.browsing)) = 3 /\
  activeSlideIndex (store (Cases.ui_after Cases.browsing)) = 1 /\
  in_range (store (Cases.ui_after Cases.browsing)) /\
  Preview.stage Samples.local (Cases.ui_after Cases.browsing) <> Preview.Blank.
Proof.
  assert (Hreach : Panel.ui_reachable Samples.local (Cases.ui_after Cases.browsing)).
  { exists Cases.browsing. vm_compute. reflexivity. }
  assert (Hn : slideCount (store (Cases.ui_after Cases.browsing)) = 3) by evaluate.
  assert (Hpos : 0 < slideCount (store (Cases.ui_after Cases.browsing)))
    by (rewrite Hn; lia).
  split; [exact Hreach|]. split; [exact Hn|]. split; [evaluate|].
  destruct (ui_cursor_on_a_slide Samples.local _ Hreach) as (Hin & _ & Hstage).
  split; [exact (Hin Hpos) | exact (Hstage Hpos)].
Defined.

Lemma ui_flags_exclusive_witness :
  Panel.ui_reachable Samples.local (Cases.ui_after Cases.started_over) /\
  inflight (Cases.ui_after Cases.started_over)
  = [RefineCall "p1"
       ["Build a 3-slide company quarterly results summary with key metrics"]
       "Add pricing";
     GenerateCall "Start again"] /\
  (isGenerating (store (Cases.ui_after Cases.started_over))
   && isRefining (store (Cases.ui_after Cases.started_over)))%bool = false.
Proof.
  split; [exact ui_reachable_started_over|]. split; [evaluate|].
  destruct (ui_flags_exclusive Samples.local _ ui_reachable_started_over)
    as [Hex _].
  exact Hex.
Defined.

Lemma ui_prompts_never_blank_witness :
  Panel.ui_reachable Samples.local (Cases.ui_after Cases.started_over) /\
  In (GenerateCall "Start again") (inflight (Cases.ui_after Cases.started_over)) /\
  truthy "Start again" = true.
Proof.
  assert (Hin : In (GenerateCall "Start again")
                   (inflight (Cases.ui_after Cases.started_over))).
  { assert (Hfl : inflight (Cases.ui_after Cases.started_over)
                  = [RefineCall "p1"
                       ["Build a 3-slide company quarterly results summary with key metrics"]
                       "Add pricing";
                     GenerateCall "Start again"]) by evaluate.
    rewrite Hfl. right; left; reflexivity. }
  split; [exact ui_reachable_started_over|]. split; [exact Hin|].
  destruct (ui_prompts_never_blank Samples.local _ ui_reachable_started_over)
    as (_ & Hgen & _).
  exact (Hgen _ Hin).
Defined.

Lemma form_fields_belong_to_user_witness :
  step Samples.local (GenerateSettles 0 (Resolved Samples.generated_p1))
       Samples.generating = Some Samples.ready_p1 /\
  prompt (store Samples.ready_p1) = prompt (store Samples.generating).
Proof.
  assert (Hstep : step Samples.local (GenerateSettles 0 (Resolved Samples.generated_p1))
                       Samples.generating = Some Samples.ready_p1) by evaluate.
  split; [exact Hstep|].
  destruct (form_fields_belong_to_user Samples.local _ _ _ Hstep) as (Hp & _).
  exact Hp.
Defined.

Lemma drop_takes_pptx_only_witness :
  (exists stem, Schema.File.name Cases.brand = stem ++ ".pptx") /\
  templateFile (store (Panel.handleFileDrop (Some Cases.brand) initial))
  = Some Cases.brand /\
  Panel.endsWith "BRAND.PPTX" ".pptx" = false.
Proof.
  assert (Hname : exists stem, Schema.File.name Cases.brand = stem ++ ".pptx")
    by (exists "brand"; reflexivity).
  split; [exact Hname|].
  destruct (drop_takes_pptx_only Cases.brand initial) as (Htake & _).
  split; [exact (Htake Hname) | reflexivity].
Defined.

Lemma uncrossed_flags_exclusive_witness :
  Crossing.uncrossed_reachable Samples.local Cases.overlapping /\
  inflight Cases.overlapping
  = [RefineCall "p1" [Samples.pitch] "Add pricing"; GenerateCall "Start again"] /\
  isGenerating (store Cases.overlapping) = true /\
  (isGenerating (store Cases.overlapping)
   && isRefining (store Cases.overlapping))%bool = false /\
  Crossing.crosses (Generate "Start again" None) (store Samples.refining) = true /\
  isGenerating (store Samples.both_busy) = true /\
  isRefining (store Samples.both_busy) = true /\
  Panel.ui_reachable Samples.local (Cases.ui_after Cases.started_over) /\
  Crossing.uncrossed_reachable Samples.local (Cases.ui_after Cases.started_over) /\
  serially_reachable Samples.local Samples.refining /\
  Crossing.uncrossed_reachable Samples.local Samples.refining.
Proof.
  assert (Hserial : serially_reachable Samples.local Samples.refining).
  { exists [Generate Samples.pitch None;
            GenerateSettles 0 (Resolved Samples.generated_p1);
            Refine "Add pricing"].
    vm_compute. reflexivity. }
  assert (Hreach : Crossing.uncrossed_reachable Samples.local Cases.overlapping).
  { exists [Generate Samples.pitch None;
            GenerateSettles 0 (Resolved Samples.generated_p1);
            Refine "Add pricing"; DoReset; Generate "Start again" None].
    vm_compute. reflexivity. }
  assert (Hcross : Crossing.crosses (Generate "Start again" None)
                     (store Samples.refining) = true) by evaluate.
  assert (Hstep : step Samples.local (Generate "Start again" None) Samples.refining
                  = Some Samples.both_busy) by evaluate.
  destruct (uncrossed_flags_exclusive Samples.local) as (Hex & Hboth & Hui & Hser).
  split; [exact Hreach|]. split; [evaluate|]. split; [evaluate|].
  split; [exact (proj1 (Hex _ Hreach))|]. split; [exact Hcross|].
  destruct (Hboth _ _ _ Hcross Hstep) as [Hg Hr].
  split; [exact Hg|]. split; [exact Hr|].
  split; [exact ui_reachable_started_over|].
  split; [exact (Hui _ ui_reachable_started_over)|].
  split; [exact Hserial | exact (Hser _ Hserial)].
Defined.
